(** * helpers.js: OS-specific settings synchronisation

    A shallow embedding of [src/helpers.js] and the properties of its
    recursive object merge and of its settings-file resolution.

    Modelling choices, all read off the source:

    - A settings document is whatever [JSON.parse] returns: null, a boolean,
      a number, a string, an array or an object.  A number is the rational
      its double denotes, or an infinity (a literal beyond the range of a
      double); a string is its sequence of UTF-16 code units.  Objects are
      finite maps from property names to values ([gmap string value]); the
      order in which a JavaScript object enumerates its keys is not
      observed by any statement below and is not modelled.
    - Objects are the ordinary ones built by [JSON.parse] and by object
      literals: their prototype is [Object.prototype].  What they inherit
      from it is part of the model: [key in target] and [target[key]] see
      the inherited names, and an assignment to [__proto__] ends in the
      inherited setter, which creates no property.
    - [deepMerge] is embedded twice.  [Json.deepMerge] works on JSON values
      as trees and carries the functional properties.  [Store.deepMerge]
      keeps objects and arrays in a store and passes references, as the
      code does, and carries the statement that the arguments are not
      mutated.  Lemma [deepMerge_refines] relates the two: on arguments
      that read as JSON values, the second computes the first.
    - The host (editor API, file system, process) is an explicit [world]
      threaded through a state-and-exception monad; an [await] on a promise
      that rejects is a thrown exception of that monad.  A file is
      represented by what the code can observe of it: whether it exists,
      whether it can be read, and what [JSON.parse] makes of its text.
      Paths are those of a POSIX host, and [path.join] normalises them. *)

From stdpp Require Import gmap strings list fin_maps pretty.
From Stdlib Require Import Ascii QArith Qcanon.

Set Default Proof Using "Type".
Open Scope string_scope.

(** ** JSON values and their merge *)
Module Json.

(** A JavaScript number that [JSON.parse] can return: a finite double, kept
    as the rational it denotes (with [-0] and [0] identified, which no
    operation of the code tells apart), or an infinity, the result of a
    literal too large for a double. *)
Inductive number : Type :=
| Finite (q : Qc)
| Infinity (negative : bool).

(** A string is its sequence of UTF-16 code units. *)
#[local] Unset Elimination Schemes.
Inductive value : Type :=
| VNull
| VBool (b : bool)
| VNum (x : number)
| VStr (units : list N)
| VArr (elems : list value)
| VObj (props : gmap string value).
#[local] Set Elimination Schemes.

(** The empty object literal [{}]. *)
Definition empty_object : value := VObj ∅.

(** An integer literal. *)
Definition VInt (z : Z) : value := VNum (Finite (Q2Qc (inject_Z z))).

(** What [target] and [target[key]] can be in [deepMerge]: a JSON value
    (an object among them has [Object.prototype] as its prototype, as
    [JSON.parse] and object literals build it), the object
    [Object.prototype] itself, or one of the built-in functions that are
    its members. *)
Inductive target : Type :=
| Json (v : value)
| ObjectPrototype
| Builtin.
Coercion Json : value >-> target.

(** The own property names of [Object.prototype].  All are data properties
    holding functions, but [__proto__], an accessor. *)
Definition object_prototype_names : list string :=
  ["constructor"; "__defineGetter__"; "__defineSetter__"; "hasOwnProperty";
   "__lookupGetter__"; "__lookupSetter__"; "isPrototypeOf";
   "propertyIsEnumerable"; "toString"; "valueOf"; "__proto__";
   "toLocaleString"].

Definition inherited (key : string) : bool :=
  bool_decide (key ∈ object_prototype_names).

(** [function isObject(item)]:
    [item && typeof item === 'object' && !Array.isArray(item)].
    [null] is falsy, primitives are not of type ['object'], a function is
    of type ['function'], arrays are excluded by the last conjunct. *)
Definition isObject (item : target) : bool :=
  match item with
  | Json (VObj _) => true
  | ObjectPrototype => true
  | _ => false
  end.

(** JavaScript truthiness, as tested by [if (all)] and [if (settings)]. *)
Definition truthy (v : value) : bool :=
  match v with
  | VNull => false
  | VBool b => b
  | VNum (Finite q) => negb (bool_decide (q = 0%Qc))
  | VNum (Infinity _) => true
  | VStr units => negb (bool_decide (units = []))
  | VArr _ => true
  | VObj _ => true
  end.

(** The own enumerable properties of an array-like: index [i] printed in
    decimal maps to the [i]-th element. *)
Definition index_props (l : list value) : gmap string value :=
  list_to_map (imap (fun i x => (pretty i, x)) l).

(** The own enumerable properties of a value: an object has its
    properties, an array its elements under their indices, a string its
    code units under their indices; [null], booleans, numbers, the built-in
    functions and [Object.prototype] have none. *)
Definition own_enumerable (item : target) : gmap string value :=
  match item with
  | Json (VObj props) => props
  | Json (VArr elems) => index_props elems
  | Json (VStr units) => index_props ((fun c => VStr [c]) <$> units)
  | _ => ∅
  end.

(** The prototype of the object being filled, as far as assignments to it
    can tell: [Object.prototype], [null], or a JSON object or array [v]
    (whose own prototype chain ends in [Object.prototype]). *)
Inductive prototype : Type :=
| DefaultPrototype
| NullPrototype
| ValuePrototype (v : value).

(** [Object.assign({}, target)] assigns every own enumerable property of
    [target] to a new object with [to[key] = value].  For every key but
    [__proto__] that creates an own property.  For [__proto__] the
    assignment reaches the setter inherited from [Object.prototype]: it
    creates no property, and makes an object, an array or [null] the
    prototype of the new object.  [Object_assign_empty] are the own
    properties of the result, [prototype_after_assign] is its prototype. *)
Definition Object_assign_empty (item : target) : gmap string value :=
  delete "__proto__" (own_enumerable item).

Definition prototype_after_assign (item : target) : prototype :=
  match own_enumerable item !! "__proto__" with
  | Some (VObj props) => ValuePrototype (VObj props)
  | Some (VArr elems) => ValuePrototype (VArr elems)
  | Some VNull => NullPrototype
  | _ => DefaultPrototype
  end.

(** Whether an assignment to [__proto__] on an object with no such own
    property and with prototype [proto] creates an own property: it does
    when the prototype chain holds no [__proto__] setter before a data
    property of that name, or none at all. *)
Definition proto_key_is_data (proto : prototype) : bool :=
  match proto with
  | NullPrototype => true
  | ValuePrototype (VObj props) => bool_decide (is_Some (props !! "__proto__"))
  | _ => false
  end.

(** Whether [output[key] = x] creates or updates an own property of an
    [output] whose prototype is [proto]: always, but for the key
    [__proto__] when the assignment ends in the setter. *)
Definition creates_property (proto : prototype) (key : string) : bool :=
  negb (bool_decide (key = "__proto__")) || proto_key_is_data proto.

(** [output[key] = x] and [Object.assign(output, { [key]: x })], for an
    [output] whose prototype is [proto]. *)
Definition set (proto : prototype) (key : string) (x : value)
    (output : gmap string value) : gmap string value :=
  if creates_property proto key then <[key := x]> output else output.

(** [key in item], for a plain object [item]: an own property, or one
    inherited from [Object.prototype]. *)
Definition has_property (item : target) (key : string) : bool :=
  match item with
  | Json (VObj props) => bool_decide (is_Some (props !! key)) || inherited key
  | ObjectPrototype => inherited key
  | _ => false
  end.

(** [item[key]], for a plain object [item] and a [key] that is [in] it:
    the own value; else what [Object.prototype] gives, which for
    [__proto__] is the prototype of [item] and for the other names a
    function. *)
Definition get (item : target) (key : string) : target :=
  match item with
  | Json (VObj props) =>
      match props !! key with
      | Some tv => Json tv
      | None => if bool_decide (key = "__proto__") then ObjectPrototype else Builtin
      end
  | ObjectPrototype =>
      if bool_decide (key = "__proto__") then Json VNull else Builtin
  | _ => Builtin
  end.

(** One iteration of the [forEach] callback of [deepMerge], with the
    recursive call abstracted as [rec]: [key] and [sv = source[key]] come
    from [Object.keys(source)], [output] is the object being filled and
    [proto] its prototype. *)
Definition merge_key (rec : target -> value -> value)
    (item : target) (proto : prototype) (key : string) (sv : value)
    (output : gmap string value) : gmap string value :=
  if isObject sv then
    if negb (has_property item key) then set proto key sv output
    else set proto key (rec (get item key) sv) output
  else set proto key sv output.

(** [function deepMerge(target, source)].  The recursion descends into
    [source[key]], a strict component of [source]. *)
Fixpoint deepMerge (item : target) (source : value) {struct source} : value :=
  let output := Object_assign_empty item in
  let proto := prototype_after_assign item in
  VObj
    (if isObject item then
       match source with
       | VObj sprops =>                          (* isObject(source) *)
           map_fold (merge_key deepMerge item proto) output sprops
       | _ => output
       end
     else output).

(** What [JSON.parse(JSON.stringify(v, null, 4))] is: [v], but for the
    infinite numbers, which are written as [null]. *)
Fixpoint written (v : value) : value :=
  match v with
  | VNum (Infinity _) => VNull
  | VArr elems => VArr (written <$> elems)
  | VObj props => VObj (written <$> props)
  | _ => v
  end.

End Json.
Import Json.

(** ** The host: editor API, process and file system *)

(** A notification shown through [vscode.window]. *)
Inductive message : Type :=
| ErrorMessage (text : string)           (* showErrorMessage *)
| InformationMessage (text : string).    (* showInformationMessage *)

(** The text of a file, seen through the only thing the code does with it:
    [JSON.parse] either throws a [SyntaxError] or returns a value. *)
Inductive text : Type :=
| NotJson (reason : string)
| JsonText (v : value).

(** A directory entry: [fs.promises.access] resolves for both kinds,
    [fs.promises.readFile] rejects for the first. *)
Inductive file : Type :=
| Unreadable (reason : string)
| Readable (contents : text).

(** How a write fails: with an error, and either before the file is
    opened, which leaves the disk as it was, or after: [fs.writeFile] opens
    with the flag ['w'], which creates or truncates the file, so it is then
    left holding a part of the data, whatever [JSON.parse] makes of that. *)
Record failure : Type := Failure {
  error_message : string;
  left_behind : option text
}.

Record world : Type := World {
  workspaceFolders : option (list string);  (* fsPath of each folder, or undefined *)
  platform : string;                        (* process.platform *)
  disk : gmap string file;                  (* path to entry; no entry, no file *)
  write_failure : string -> option failure; (* how a write to a path fails, if it does *)
  shown : list message;                     (* notifications, oldest first *)
  console : list string                     (* console.log / console.error lines *)
}.

Definition with_disk (d : gmap string file) (w : world) : world :=
  World (workspaceFolders w) (platform w) d (write_failure w) (shown w) (console w).
Definition with_shown (s : list message) (w : world) : world :=
  World (workspaceFolders w) (platform w) (disk w) (write_failure w) s (console w).
Definition with_console (c : list string) (w : world) : world :=
  World (workspaceFolders w) (platform w) (disk w) (write_failure w) (shown w) c.

(** How a call ends: it returns, or it throws (for an [async] function: its
    promise rejects) with an error, kept as its [message]. *)
Inductive outcome (A : Type) : Type :=
| Returned (a : A)
| Thrown (error : string).
Arguments Returned {A} a.
Arguments Thrown {A} error.

Definition M (A : Type) : Type := world -> outcome A * world.

#[global] Instance M_ret : MRet M := fun A a w => (Returned a, w).
#[global] Instance M_bind : MBind M := fun A B k c w =>
  match c w with
  | (Returned a, w') => k a w'
  | (Thrown e, w') => (Thrown e, w')
  end.

Definition throw {A : Type} (error : string) : M A := fun w => (Thrown error, w).

(** [try { body } catch (error) { handler(error) }] *)
Definition try_catch {A : Type} (body : M A) (handler : string -> M A) : M A :=
  fun w =>
    match body w with
    | (Returned a, w') => (Returned a, w')
    | (Thrown e, w') => handler e w'
    end.

Definition showErrorMessage (msg : string) : M unit :=
  fun w => (Returned tt, with_shown (shown w ++ [ErrorMessage msg])%list w).
Definition showInformationMessage (msg : string) : M unit :=
  fun w => (Returned tt, with_shown (shown w ++ [InformationMessage msg])%list w).
Definition console_log (line : string) : M unit :=
  fun w => (Returned tt, with_console (console w ++ [line])%list w).
Definition console_error (line : string) : M unit := console_log line.

(** [const PLATFORMS = { all: 'all', win32: 'windows', darwin: 'macos',
    linux: 'linux' }], in the order of the literal. *)
Definition PLATFORMS : list (string * string) :=
  [("all", "all"); ("win32", "windows"); ("darwin", "macos"); ("linux", "linux")].

Definition Object_values (o : list (string * string)) : list string := o.*2.

Fixpoint own_property (o : list (string * string)) (key : string) : option string :=
  match o with
  | [] => None
  | (k, v) :: rest => if bool_decide (k = key) then Some v else own_property rest key
  end.

(** The [os] argument of the path functions: omitted, the [false] that
    [getOsName] returns for an unknown platform, or a tag. *)
Inductive os_arg : Type :=
| OsUndefined
| OsFalse
| OsTag (tag : string).

(** Truthiness of [os] in [os ? ... : ...]. *)
Definition os_truthy (os : os_arg) : bool :=
  match os with
  | OsTag tag => negb (bool_decide (tag = ""))
  | OsUndefined | OsFalse => false
  end.

(** [`${os}`] *)
Definition os_to_string (os : os_arg) : string :=
  match os with
  | OsUndefined => "undefined"
  | OsFalse => "false"
  | OsTag tag => tag
  end.

(** [os ? `settings.${os}.json` : 'settings.json'] *)
Definition settings_file_name (os : os_arg) : string :=
  if os_truthy os then "settings." +:+ os_to_string os +:+ ".json"
  else "settings.json".

(** The pieces of a path between its separators. *)
Fixpoint segments (path : string) : list string :=
  match path with
  | EmptyString => [EmptyString]
  | String c rest =>
      if bool_decide (c = "/"%char) then EmptyString :: segments rest
      else
        match segments rest with
        | seg :: segs => String c seg :: segs
        | [] => [String c EmptyString]
        end
  end.

Definition starts_with_separator (path : string) : bool :=
  match path with
  | String c _ => bool_decide (c = "/"%char)
  | EmptyString => false
  end.

Fixpoint ends_with_separator (path : string) : bool :=
  match path with
  | EmptyString => false
  | String c EmptyString => bool_decide (c = "/"%char)
  | String _ rest => ends_with_separator rest
  end.

(** One step of [normalizeString]: the segments kept so far, last one
    first, and the next segment.  Empty segments and [.] are dropped;
    [..] removes the segment before it, or is kept where there is none to
    remove and the path is relative ([allowAboveRoot]). *)
Definition push_segment (allowAboveRoot : bool) (kept : list string)
    (segment : string) : list string :=
  if bool_decide (segment = "") || bool_decide (segment = ".") then kept
  else if bool_decide (segment = "..") then
    match kept with
    | last :: before =>
        if bool_decide (last = "..")
        then (if allowAboveRoot then ".." :: kept else kept)
        else before
    | [] => if allowAboveRoot then [".."] else []
    end
  else segment :: kept.

(** [path.normalize], on a POSIX host. *)
Definition path_normalize (path : string) : string :=
  if bool_decide (path = "") then "."
  else
    let isAbsolute := starts_with_separator path in
    let trailingSeparator := ends_with_separator path in
    let normalized :=
      String.concat "/"
        (rev (fold_left (push_segment (negb isAbsolute)) (segments path) [])) in
    if bool_decide (normalized = "") then
      if isAbsolute then "/" else if trailingSeparator then "./" else "."
    else
      (if isAbsolute then "/" else "") +:+ normalized
      +:+ (if trailingSeparator then "/" else "").

(** [path.join], on a POSIX host: the non-empty arguments separated by
    [/], normalised. *)
Definition path_join (paths : list string) : string :=
  match filter (fun arg => arg ≠ "") paths with
  | [] => "."
  | joined => path_normalize (String.concat "/" joined)
  end.

(** The path [getSettingFilePath(os)] computes in a workspace whose first
    folder is [folder]. *)
Definition settings_path (folder : string) (os : os_arg) : string :=
  path_join [folder; ".vscode"; settings_file_name os].

(** [function getSettingFilePath(os)].  Reading [workspaceFolders[0]] off
    [undefined], or [.uri] off the missing first element of an empty array,
    throws a [TypeError]. *)
Definition getSettingFilePath (os : os_arg) : M string :=
  fun w =>
    match workspaceFolders w with
    | None =>
        (Thrown "Cannot read properties of undefined (reading '0')", w)
    | Some [] =>
        (Thrown "Cannot read properties of undefined (reading 'uri')", w)
    | Some (folder :: _) => (Returned (settings_path folder os), w)
    end.

(** [async function fileExists(filePath)]: [access] resolves exactly when
    there is an entry; a rejection is caught and turned into [false]. *)
Definition fileExists (filePath : string) : M bool :=
  fun w => (Returned (bool_decide (is_Some (disk w !! filePath))), w).

(** [fs.promises.readFile(filePath, 'utf8')] *)
Definition readFile (filePath : string) : M text :=
  fun w =>
    match disk w !! filePath with
    | Some (Readable contents) => (Returned contents, w)
    | Some (Unreadable reason) => (Thrown reason, w)
    | None => (Thrown ("ENOENT: no such file or directory, open " +:+ filePath), w)
    end.

(** [JSON.parse(text)] *)
Definition JSON_parse (t : text) : M value :=
  match t with
  | JsonText v => mret v
  | NotJson reason => throw reason
  end.

(** [JSON.stringify(settings, null, 4)]: a text that parses back to
    [settings], but for the infinite numbers in it, written as [null]. *)
Definition JSON_stringify (settings : value) : text := JsonText (written settings).

(** [async function getFileContent(filePath)] *)
Definition getFileContent (filePath : string) : M value :=
  found ← fileExists filePath;
  if (found : bool) then
    try_catch
      (contents ← readFile filePath;
       osSettings ← JSON_parse contents;
       mret osSettings)
      (fun error =>
         showErrorMessage ("Error reading settings file: " +:+ error);;
         mret empty_object)
  else
    showErrorMessage ("Settings file not found: " +:+ filePath);;
    mret empty_object.

(** [async function getSettingsFileContent(os)] *)
Definition getSettingsFileContent (os : os_arg) : M value :=
  filePath ← getSettingFilePath os;
  getFileContent filePath.

(** [async function getDefaultSettingsFileContent()] *)
Definition getDefaultSettingsFileContent : M value :=
  all ← getSettingsFileContent (OsTag "all");
  if truthy all then mret all
  else
    settings ← getSettingsFileContent OsUndefined;
    if truthy settings then mret settings
    else mret empty_object.

(** [async function isValid()]: the four existence checks are independent
    reads of the disk, so joining them with [Promise.all] gives the results
    of running them one after the other. *)
Definition isValid : M bool :=
  settingsFiles ← mapM (fun os => getSettingFilePath (OsTag os)) (Object_values PLATFORMS);
  results ← mapM fileExists settingsFiles;
  mret (default false (results !! 0%nat) || default false (results !! 1%nat)
        || default false (results !! 2%nat) || default false (results !! 3%nat)).

(** [function getOsName()] *)
Definition getOsName : M os_arg :=
  fun w =>
    let os := platform w in
    match own_property PLATFORMS os with       (* PLATFORMS.hasOwnProperty(os) *)
    | Some name => (Returned (OsTag name), w)
    | None =>
        (showErrorMessage ("Unsupported operating system: " +:+ os);;
         mret OsFalse) w
    end.

(** A function of the callback API of [fs] ([fs.mkdir], [fs.access],
    [fs.writeFile]) called without its callback: Node validates the callback
    before doing anything and throws a [TypeError]. *)
Definition fs_without_callback {A : Type} (name : string) : M A :=
  throw ("The cb argument must be of type function. Received undefined (fs." +:+ name +:+ ")").

(** [async function createFileIfNotExists(filePath, content = '')].  The
    module [fs] it calls is the callback API, not [fs.promises]; the whole
    body is inside [try], so whatever is thrown ends in [console.error]. *)
Definition createFileIfNotExists (filePath content : string) : M unit :=
  try_catch
    ((fs_without_callback "mkdir" : M unit);;
     found ← (fs_without_callback "access" : M bool);
     if negb found then
       (fs_without_callback "writeFile" : M unit);;
       console_log ("File created: " +:+ filePath)
     else
       console_log ("File already exists: " +:+ filePath))
    (fun error => console_error ("Error while creating file: " +:+ error)).

(** [fs.writeFile(filePath, data, 'utf8', callback)] wrapped in a promise:
    rejected with the error of the callback, resolved otherwise.  A write
    that fails after opening the file leaves it truncated. *)
Definition writeFile (filePath : string) (data : text) : M unit :=
  fun w =>
    match write_failure w filePath with
    | Some (Failure error None) => (Thrown error, w)
    | Some (Failure error (Some partial)) =>
        (Thrown error, with_disk (<[filePath := Readable partial]> (disk w)) w)
    | None => (Returned tt, with_disk (<[filePath := Readable data]> (disk w)) w)
    end.

(** [async function updateSettingsFile(newSettings)] *)
Definition updateSettingsFile (newSettings : value) : M unit :=
  filePath ← getSettingFilePath OsUndefined;
  found ← fileExists filePath;
  (if negb found then createFileIfNotExists filePath "{}" else mret tt);;
  defaultSettings ← getDefaultSettingsFileContent;
  let settings := deepMerge (Json defaultSettings) newSettings in
  writeFile filePath (JSON_stringify settings).

(** [async function vsCodeUpdateSettingsFile()], the exported entry
    point. *)
Definition vsCodeUpdateSettingsFile : M unit :=
  valid ← isValid;
  if negb valid then showErrorMessage "No workspace folder opened."
  else
    fun w =>
      match workspaceFolders w with
      | None => showErrorMessage "No workspace folder opened." w
      | Some _ =>
          (os ← getOsName;
           osSettings ← getSettingsFileContent os;
           try_catch
             (updateSettingsFile osSettings;;
              showInformationMessage
                ("Updated settings.json for " +:+ os_to_string os +:+ " operating system."))
             (fun error =>
                showErrorMessage ("Error updating settings.json: " +:+ error))) w
      end.

(** ** deepMerge over a store of objects

    JavaScript objects and arrays are references.  To speak about what
    [deepMerge] does to its arguments, this second embedding keeps every
    object and array in a store and passes references around, the way the
    code does: [Object.assign({}, target)] allocates, [output[key] = ...]
    updates the cell of [output], and [source[key]] may end up shared
    between [source] and the result.

    The objects of the store are the ones [JSON.parse] and object literals
    build: their prototype is [Object.prototype].  The one object whose
    prototype can differ is the [output] a call is filling (an assignment
    to [__proto__] changes it); nothing but the assignments of that call
    depends on it, and it is passed along with [output]. *)
Module Store.

(** Addresses of cells. *)
Abbreviation loc := positive (only parsing).

(** A JavaScript value whose objects and arrays are references. *)
Inductive ref_value : Type :=
| Undefined
| Null
| Bool (b : bool)
| Num (x : number)
| Str (units : list N)
| Ref (l : loc)
| ObjectPrototype                     (* the object Object.prototype *)
| Builtin.                            (* a function that is one of its members *)

Inductive cell : Type :=
| Obj (props : gmap string ref_value)
| Arr (elems : list ref_value).

Abbreviation store := (gmap loc cell) (only parsing).

(** [function isObject(item)] *)
Definition isObject (h : store) (item : ref_value) : bool :=
  match item with
  | Ref l => match h !! l with Some (Obj _) => true | _ => false end
  | ObjectPrototype => true
  | _ => false
  end.

Definition index_props (l : list ref_value) : gmap string ref_value :=
  list_to_map (imap (fun i x => (pretty i, x)) l).

(** The own enumerable properties of a value. *)
Definition own_props (h : store) (v : ref_value) : gmap string ref_value :=
  match v with
  | Ref l =>
      match h !! l with
      | Some (Obj props) => props
      | Some (Arr elems) => index_props elems
      | None => ∅
      end
  | Str units => index_props ((fun c => Str [c]) <$> units)
  | Undefined | Null | Bool _ | Num _ | ObjectPrototype | Builtin => ∅
  end.

(** [Object.keys(v)] *)
Definition Object_keys (h : store) (v : ref_value) : list string :=
  (map_to_list (own_props h v)).*1.

(** [v[key]], for a plain object or [Object.prototype]: the own value;
    else what [Object.prototype] gives, which for [__proto__] is the
    prototype of [v] and for its other names a function. *)
Definition get (h : store) (v : ref_value) (key : string) : ref_value :=
  match own_props h v !! key with
  | Some x => x
  | None =>
      match v with
      | Ref _ =>
          if bool_decide (key = "__proto__") then ObjectPrototype
          else if inherited key then Builtin else Undefined
      | ObjectPrototype =>
          if bool_decide (key = "__proto__") then Null
          else if inherited key then Builtin else Undefined
      | _ => Undefined
      end
  end.

(** [key in v], for a plain object or [Object.prototype]: an own property,
    or one inherited from [Object.prototype]. *)
Definition has (h : store) (v : ref_value) (key : string) : bool :=
  match v with
  | Ref _ => bool_decide (is_Some (own_props h v !! key)) || inherited key
  | ObjectPrototype => inherited key
  | _ => false
  end.

(** A new cell at an address the store does not use yet. *)
Definition alloc (c : cell) (h : store) : loc * store :=
  let l := fresh (dom h) in (l, <[l := c]> h).

(** The prototype of the object being filled: [Object.prototype], [null],
    or the object or array at an address. *)
Inductive prototype : Type :=
| DefaultPrototype
| NullPrototype
| PrototypeAt (l : loc).

(** What [Object.assign({}, target)] does with an own property
    [__proto__] of [target]: the assignment reaches the setter inherited
    from [Object.prototype], which creates no property and makes an
    object, an array or [null] the prototype of the new object. *)
Definition Object_assign_empty (h : store) (target : ref_value)
    : gmap string ref_value :=
  delete "__proto__" (own_props h target).

Definition prototype_after_assign (h : store) (target : ref_value) : prototype :=
  match own_props h target !! "__proto__" with
  | Some (Ref l) => PrototypeAt l
  | Some Null => NullPrototype
  | _ => DefaultPrototype
  end.

(** Whether an assignment to [__proto__] on an object with no such own
    property and with prototype [proto] creates an own property. *)
Definition proto_key_is_data (h : store) (proto : prototype) : bool :=
  match proto with
  | NullPrototype => true
  | PrototypeAt l =>
      match h !! l with
      | Some (Obj props) => bool_decide (is_Some (props !! "__proto__"))
      | _ => false
      end
  | DefaultPrototype => false
  end.

Definition creates_property (h : store) (proto : prototype) (key : string) : bool :=
  negb (bool_decide (key = "__proto__")) || proto_key_is_data h proto.

(** [output[key] = v] and [Object.assign(output, { [key]: v })], for the
    object at [output], whose prototype is [proto]. *)
Definition set (proto : prototype) (output : loc) (key : string) (v : ref_value)
    (h : store) : store :=
  match h !! output with
  | Some (Obj props) =>
      if creates_property h proto key
      then <[output := Obj (<[key := v]> props)]> h
      else h
  | _ => h
  end.

(** [keys.forEach(body)], threading the store; [None] once [body] has run
    out of fuel. *)
Fixpoint forEach (keys : list string) (body : string -> store -> option store)
    (h : store) : option store :=
  match keys with
  | [] => Some h
  | key :: rest => h' ← body key h; forEach rest body h'
  end.

(** One iteration of the [forEach] callback of [deepMerge], with the
    recursive call abstracted as [rec]. *)
Definition merge_key
    (rec : ref_value -> ref_value -> store -> option (ref_value * store))
    (target source : ref_value) (proto : prototype) (output : loc)
    (key : string) (h : store) : option store :=
  let sv := get h source key in
  if isObject h sv then
    if negb (has h target key) then Some (set proto output key sv h)
    else
      '(merged, h) ← rec (get h target key) sv h;
      Some (set proto output key merged h)
  else Some (set proto output key sv h).

(** [function deepMerge(target, source)].  [fuel] bounds the depth of the
    call stack; with references a source may contain itself, and the
    recursion need not end. *)
Fixpoint deepMerge (fuel : nat) (target source : ref_value) (h : store)
    : option (ref_value * store) :=
  match fuel with
  | O => None
  | S fuel =>
      let proto := prototype_after_assign h target in
      let '(output, h) := alloc (Obj (Object_assign_empty h target)) h in
      if isObject h target && isObject h source then
        h ← forEach (Object_keys h source)
              (merge_key (deepMerge fuel) target source proto output) h;
        Some (Ref output, h)
      else Some (Ref output, h)
  end.

(** [v] holds no dangling reference on the way down its plain objects, and
    their nesting depth is below [fuel]. *)
Fixpoint depth_within (fuel : nat) (h : store) (v : ref_value) : bool :=
  match fuel with
  | O => false
  | S fuel =>
      match v with
      | Ref l =>
          match h !! l with
          | Some (Obj props) =>
              forallb (fun kv => depth_within fuel h kv.2) (map_to_list props)
          | Some (Arr _) => true
          | None => false
          end
      | _ => true
      end
  end.

(** The JSON value a reference value stands for, read off the store down to
    depth [fuel]; [None] for [undefined], for [Object.prototype] and its
    functions, for a dangling reference, and for a structure deeper than
    [fuel]. *)
Fixpoint read (fuel : nat) (h : store) (v : ref_value) : option value :=
  match v with
  | Undefined | ObjectPrototype | Builtin => None
  | Null => Some VNull
  | Bool b => Some (VBool b)
  | Num x => Some (VNum x)
  | Str units => Some (VStr units)
  | Ref l =>
      match fuel with
      | O => None
      | S fuel =>
          match h !! l with
          | Some (Obj props) =>
              if bool_decide (map_Forall (fun _ x => is_Some (read fuel h x)) props)
              then Some (VObj (omap (read fuel h) props))
              else None
          | Some (Arr elems) => VArr <$> mapM (read fuel h) elems
          | None => None
          end
      end
  end.

(** What a target of [deepMerge] stands for. *)
Definition read_target (fuel : nat) (h : store) (v : ref_value) : option target :=
  match v with
  | ObjectPrototype => Some Json.ObjectPrototype
  | Builtin => Some Json.Builtin
  | _ => Json <$> read fuel h v
  end.

End Store.

(** ** Vocabulary of the statements *)

(** What one key of the overlay contributes: the value the [forEach]
    callback of [deepMerge] assigns under [key], whose overlay value is
    [sv], when the base is [item]. *)
Definition stored_at (rec : target -> value -> value) (item : target)
    (key : string) (sv : value) : value :=
  if isObject sv && has_property item key then rec (get item key) sv else sv.

(** The number of nodes of a JSON value, the measure for inductions over
    values. *)
Fixpoint nodes (v : value) : nat :=
  match v with
  | VObj props => S (map_fold (fun _ x n => nodes x + n)%nat 0%nat props)
  | VArr elems => S (foldr (fun x n => nodes x + n)%nat 0%nat elems)
  | _ => 1
  end.

(** No object on the way down the objects of [v] has a property named
    [__proto__]. *)
Fixpoint proto_free (v : value) : bool :=
  match v with
  | VObj props =>
      negb (bool_decide (is_Some (props !! "__proto__")))
      && map_fold (fun _ x b => proto_free x && b) true props
  | _ => true
  end.

(** A path without separator, and a file name: a non-empty path without
    separator other than [.] and [..]. *)
Fixpoint no_separator (path : string) : bool :=
  match path with
  | EmptyString => true
  | String c rest => negb (bool_decide (c = "/"%char)) && no_separator rest
  end.

Fixpoint no_backslash (path : string) : bool :=
  match path with
  | EmptyString => true
  | String c rest => negb (bool_decide (c = "\"%char)) && no_backslash rest
  end.

(** An [os] argument whose tag holds no path separator, neither that of a
    POSIX host nor that of a Windows host. *)
Definition plain_tag (os : os_arg) : bool :=
  no_separator (os_to_string os) && no_backslash (os_to_string os).

Definition is_file_name (name : string) : bool :=
  negb (bool_decide (name = "")) && negb (bool_decide (name = "."))
  && negb (bool_decide (name = "..")) && no_separator name.

(** The [os] arguments under which the code looks for a settings file:
    none, and the values of [PLATFORMS]. *)
Definition candidates : list os_arg :=
  OsUndefined :: (OsTag <$> Object_values PLATFORMS).

(** The world after one more notification. *)
Definition notify (m : message) (w : world) : world :=
  with_shown (shown w ++ [m])%list w.

(** [w'] differs from [w] at most in what was shown and logged. *)
Definition same_host (w w' : world) : Prop :=
  workspaceFolders w' = workspaceFolders w ∧ platform w' = platform w ∧
  disk w' = disk w ∧ write_failure w' = write_failure w.

(** A Linux host with the workspace folder [/w] open, the given files on
    disk, writes that succeed, and nothing shown yet. *)
Definition workspace_with (files : gmap string file) : world :=
  World (Some ["/w"]) "linux" files (fun _ => None) [] [].

Definition json_file (v : value) : file := Readable (JsonText v).

(** Only the generic [settings.json], holding [{a:1}]. *)
Definition only_generic : world :=
  workspace_with {[ "/w/.vscode/settings.json" := json_file (VObj {[ "a" := VInt 1 ]}) ]}.

(** [settings.all.json] holds [null]; [settings.json] holds [{a:1}]. *)
Definition null_all : world :=
  workspace_with {[ "/w/.vscode/settings.all.json" := json_file VNull;
                    "/w/.vscode/settings.json" := json_file (VObj {[ "a" := VInt 1 ]}) ]}.

(** [settings.all.json] holds [{a:1}], [settings.linux.json] holds
    [{b:2}]. *)
Definition all_and_linux : world :=
  workspace_with {[ "/w/.vscode/settings.all.json" := json_file (VObj {[ "a" := VInt 1 ]});
                    "/w/.vscode/settings.linux.json" := json_file (VObj {[ "b" := VInt 2 ]}) ]}.


(** [settings.json] holds [{a:1}], [settings.linux.json] holds [{b:2}];
    there is no [settings.all.json]. *)
Definition generic_and_linux : world :=
  workspace_with {[ "/w/.vscode/settings.json" := json_file (VObj {[ "a" := VInt 1 ]});
                    "/w/.vscode/settings.linux.json" := json_file (VObj {[ "b" := VInt 2 ]}) ]}.

(** [settings.linux.json] is not JSON. *)
Definition broken_linux : world :=
  workspace_with {[ "/w/.vscode/settings.linux.json" := Readable (NotJson "Unexpected end of JSON input") ]}.

(** ** Vocabulary of the further statements *)

(** [w'] has the workspace, the platform and the write failures of [w];
    its disk may differ. *)
Definition same_environment (w w' : world) : Prop :=
  workspaceFolders w' = workspaceFolders w ∧ platform w' = platform w ∧
  write_failure w' = write_failure w.

(** Whether one of the files [isValid] probes exists: the settings files
    of the values of [PLATFORMS], in a workspace whose first folder is
    [folder]. *)
Definition has_platform_file (folder : string) (w : world) : bool :=
  bool_decide (is_Some (disk w !! settings_path folder (OsTag "all")))
  || bool_decide (is_Some (disk w !! settings_path folder (OsTag "windows")))
  || bool_decide (is_Some (disk w !! settings_path folder (OsTag "macos")))
  || bool_decide (is_Some (disk w !! settings_path folder (OsTag "linux"))).

(** The notifications of the entry point and of [getFileContent]. *)
Definition updated_message (os : os_arg) : message :=
  InformationMessage
    ("Updated settings.json for " +:+ os_to_string os +:+ " operating system.").
Definition update_error_message (error : string) : message :=
  ErrorMessage ("Error updating settings.json: " +:+ error).

(** A host whose platform is not in [PLATFORMS]; [settings.all.json] holds
    [{a:1}], [settings.json] holds [{c:3}]. *)
Definition freebsd_host : world :=
  World (Some ["/w"]) "freebsd"
    {[ "/w/.vscode/settings.all.json" := json_file (VObj {[ "a" := VInt 1 ]});
       "/w/.vscode/settings.json" := json_file (VObj {[ "c" := VInt 3 ]}) ]}
    (fun _ => None) [] [].


(** The disk after a failed write to [filePath]. *)
Definition after_failed_write (filePath : string) (partial : option text)
    (d : gmap string file) : gmap string file :=
  match partial with
  | Some t => <[filePath := Readable t]> d
  | None => d
  end.



(** A store with the objects [{a:{x:1}}] at 1 and [{a:{y:2}}] at 3. *)
Definition two_nested : gmap positive Store.cell :=
  {[ 1%positive := Store.Obj {[ "a" := Store.Ref 2 ]};
     2%positive := Store.Obj {[ "x" := Store.Num (Finite 1%Qc) ]};
     3%positive := Store.Obj {[ "a" := Store.Ref 4 ]};
     4%positive := Store.Obj {[ "y" := Store.Num (Finite (Q2Qc 2)) ]} ]}.

(** What the result of the merge over a store holds under a key whose
    source value is [sv], when the target is [target]: a new object where
    the code recurses, the very value of the source elsewhere. *)
Definition shares (h : gmap positive Store.cell) (target : Store.ref_value)
    (key : string) (sv : Store.ref_value) (stored : option Store.ref_value) : Prop :=
  if Store.isObject h sv && Store.has h target key
  then ∃ l, stored = Some (Store.Ref l) ∧ h !! l = None
  else stored = Some sv.

(** A store with the objects [{a:{x:1}}] at 1 and [{b:{y:2}}] at 3. *)
Definition two_disjoint : gmap positive Store.cell :=
  {[ 1%positive := Store.Obj {[ "a" := Store.Ref 2 ]};
     2%positive := Store.Obj {[ "x" := Store.Num (Finite 1%Qc) ]};
     3%positive := Store.Obj {[ "b" := Store.Ref 4 ]};
     4%positive := Store.Obj {[ "y" := Store.Num (Finite (Q2Qc 2)) ]} ]}.

(** Unfold the monad of the host and compute. *)
Ltac run := unfold mbind, M_bind, mret, M_ret, throw, try_catch in *; simpl in *.

(** * Properties of the merge *)

Section merge.
Implicit Types (item : target) (source tv sv : value).
Implicit Types (tprops sprops out : gmap string value) (proto : prototype).
Implicit Types (key k : string).

Lemma set_lookup proto key x out k :
  set proto key x out !! k =
    if decide (key = k)
    then (if creates_property proto key then Some x else out !! k)
    else out !! k.
Proof.
  unfold set. destruct (creates_property proto key).
  - by rewrite lookup_insert.
  - by destruct (decide (key = k)).
Qed.

Lemma merge_key_set rec item proto key sv out :
  merge_key rec item proto key sv out = set proto key (stored_at rec item key sv) out.
Proof.
  unfold merge_key, stored_at.
  by destruct (isObject sv), (has_property item key).
Qed.

(** The loop over [Object.keys(source)], key by key. *)
Lemma forEach_lookup rec item proto out sprops k :
  map_fold (merge_key rec item proto) out sprops !! k =
    match sprops !! k with
    | Some sv =>
        if creates_property proto k then Some (stored_at rec item k sv) else out !! k
    | None => out !! k
    end.
Proof.
  induction sprops as [|key sv sprops Hfresh Hfirst IH] using map_first_key_ind.
  - by rewrite map_fold_empty, lookup_empty.
  - rewrite map_fold_insert_first_key by done.
    rewrite merge_key_set, set_lookup, lookup_insert.
    destruct (decide (key = k)) as [->|]; [|apply IH].
    destruct (creates_property proto k); [done|].
    by rewrite IH, Hfresh.
Qed.

Lemma creates_property_ordinary proto k : k ≠ "__proto__" → creates_property proto k = true.
Proof. intros Hk. unfold creates_property. by rewrite bool_decide_eq_false_2. Qed.

Lemma deepMerge_objects tprops sprops :
  deepMerge (VObj tprops) (VObj sprops) =
    VObj (map_fold (merge_key deepMerge (VObj tprops) (prototype_after_assign (VObj tprops)))
            (delete "__proto__" tprops) sprops).
Proof. by destruct sprops. Qed.

Lemma deepMerge_both item sprops :
  isObject item = true →
  deepMerge item (VObj sprops) =
    VObj (map_fold (merge_key deepMerge item (prototype_after_assign item))
            (Object_assign_empty item) sprops).
Proof. intros H. cbn [deepMerge]. by rewrite H. Qed.

(** The result of merging two mappings, property by property, at every
    key but [__proto__]. *)
Lemma deepMerge_lookup tprops sprops k :
  k ≠ "__proto__" →
  ∃ result, deepMerge (VObj tprops) (VObj sprops) = VObj result ∧
    result !! k =
      match sprops !! k with
      | None => tprops !! k
      | Some sv => Some (stored_at deepMerge (VObj tprops) k sv)
      end.
Proof.
  intros Hk. eexists. split; [apply deepMerge_objects|].
  rewrite forEach_lookup, creates_property_ordinary, lookup_delete_ne by done.
  done.
Qed.

(** The result has the keys of both mappings, [__proto__] apart. *)
Lemma deepMerge_dom tprops sprops result :
  deepMerge (VObj tprops) (VObj sprops) = VObj result →
  dom result ∖ {["__proto__"]} = (dom tprops ∪ dom sprops) ∖ {["__proto__"]}.
Proof.
  rewrite deepMerge_objects. intros [= <-]. apply set_eq. intros k.
  rewrite !elem_of_difference, elem_of_union, !elem_of_dom, not_elem_of_singleton.
  destruct (decide (k = "__proto__")) as [->|Hk]; [by split; intros [_ ?]|].
  rewrite forEach_lookup, creates_property_ordinary, lookup_delete_ne by done.
  destruct (sprops !! k) as [sv|] eqn:Hs.
  - split; [intros _; split; [right; eauto|done] | intros _; eauto].
  - split; [intros [? _]; split; [by left|done] | intros [[?|[? [=]]] _]; done].
Qed.

(** A key whose overlay value is not a plain object, or that the base
    neither has nor inherits: the overlay's value. *)
Lemma deepMerge_overlay_wins tprops sprops result k sv :
  deepMerge (VObj tprops) (VObj sprops) = VObj result →
  k ≠ "__proto__" →
  sprops !! k = Some sv →
  isObject sv = false ∨ has_property (VObj tprops) k = false →
  result !! k = Some sv.
Proof.
  rewrite deepMerge_objects. intros [= <-] Hk Hs Hcase.
  rewrite forEach_lookup, Hs, creates_property_ordinary by done.
  unfold stored_at. destruct Hcase as [->| ->]; [done|by rewrite andb_false_r].
Qed.

(** A key of both whose overlay value is a plain object: the merge of
    the two values. *)
Lemma deepMerge_recursive tprops sprops result k tv sv :
  deepMerge (VObj tprops) (VObj sprops) = VObj result →
  k ≠ "__proto__" →
  tprops !! k = Some tv → sprops !! k = Some sv → isObject sv = true →
  result !! k = Some (deepMerge tv sv).
Proof.
  rewrite deepMerge_objects. intros [= <-] Hk Ht Hs Hobj.
  rewrite forEach_lookup, Hs, creates_property_ordinary by done.
  unfold stored_at. cbn [has_property get]. rewrite Hobj, Ht.
  by rewrite bool_decide_eq_true_2 by eauto.
Qed.

(** A key of the base alone keeps the value of the base. *)
Lemma deepMerge_base_kept tprops sprops result k :
  deepMerge (VObj tprops) (VObj sprops) = VObj result →
  k ≠ "__proto__" →
  sprops !! k = None →
  result !! k = tprops !! k.
Proof.
  rewrite deepMerge_objects. intros [= <-] Hk Hs.
  by rewrite forEach_lookup, Hs, lookup_delete_ne.
Qed.

(** Unless both arguments are plain objects the result is the copy
    [Object.assign({}, target)]; the overlay is ignored. *)
Lemma deepMerge_not_both item source :
  isObject item && isObject source = false →
  deepMerge item source = VObj (Object_assign_empty item).
Proof.
  destruct source; cbn [deepMerge]; by destruct (isObject item).
Qed.

(** A key of both whose overlay value is a plain object and whose base
    value is not: the copy of the base value, not the overlay's value. *)
Lemma deepMerge_object_over_other tprops sprops result k tv sv :
  deepMerge (VObj tprops) (VObj sprops) = VObj result →
  k ≠ "__proto__" →
  tprops !! k = Some tv → sprops !! k = Some sv →
  isObject sv = true → isObject tv = false →
  result !! k = Some (VObj (Object_assign_empty tv)).
Proof.
  intros Hres Hk Ht Hs Hsv Htv.
  rewrite (deepMerge_recursive _ _ _ _ _ _ Hres Hk Ht Hs Hsv).
  by rewrite deepMerge_not_both by by rewrite Htv.
Qed.

(** The key [__proto__] of the overlay: with a base that has no property
    of that name the assignment ends in the setter of [Object.prototype],
    and the result has no such property. *)
Lemma deepMerge_proto_key tprops sprops result :
  deepMerge (VObj tprops) (VObj sprops) = VObj result →
  proto_key_is_data (prototype_after_assign (VObj tprops)) = false →
  result !! "__proto__" = None.
Proof.
  rewrite deepMerge_objects. intros [= <-] Hdata.
  rewrite forEach_lookup. unfold creates_property. rewrite Hdata. cbn.
  rewrite lookup_delete_eq. by destruct (sprops !! "__proto__").
Qed.

Lemma nodes_property (props : gmap string value) k v :
  props !! k = Some v → (nodes v < nodes (VObj props))%nat.
Proof.
  cbn [nodes]. revert k v.
  induction props as [|i x props Hfresh Hfirst IH] using map_first_key_ind;
    intros k v; [by rewrite lookup_empty|].
  rewrite map_fold_insert_first_key by done.
  rewrite lookup_insert. case_decide as Hk.
  - intros [= ->]. lia.
  - intros Hv. specialize (IH k v Hv). lia.
Qed.

Lemma proto_free_property (props : gmap string value) k v :
  proto_free (VObj props) = true → props !! k = Some v → proto_free v = true.
Proof.
  cbn [proto_free]. intros [_ Hall]%andb_true_iff. revert Hall k v.
  induction props as [|i x props Hfresh Hfirst IH] using map_first_key_ind;
    intros Hall k v; [by rewrite lookup_empty|].
  rewrite map_fold_insert_first_key in Hall by done.
  apply andb_true_iff in Hall as [Hx Hrest].
  rewrite lookup_insert. case_decide as Hk.
  - by intros [= <-].
  - by apply IH.
Qed.

Lemma proto_free_own (props : gmap string value) :
  proto_free (VObj props) = true → props !! "__proto__" = None.
Proof.
  cbn [proto_free]. intros [Hown _]%andb_true_iff.
  apply negb_true_iff, bool_decide_eq_false in Hown.
  by apply eq_None_not_Some.
Qed.

Lemma prototype_default tprops :
  tprops !! "__proto__" = None →
  prototype_after_assign (VObj tprops) = DefaultPrototype.
Proof. unfold prototype_after_assign. cbn [own_enumerable]. by intros ->. Qed.

(** Where the base has no [__proto__] and the loop neither recurses nor
    meets the key [__proto__], the merge is the union of the two mappings
    in which the overlay takes precedence. *)
Lemma deepMerge_union tprops sprops :
  tprops !! "__proto__" = None →
  (∀ k sv, sprops !! k = Some sv →
     k ≠ "__proto__" ∧ (isObject sv = false ∨ has_property (VObj tprops) k = false)) →
  deepMerge (VObj tprops) (VObj sprops) = VObj (sprops ∪ tprops).
Proof.
  intros Hproto Hflat. rewrite deepMerge_objects. f_equal. apply map_eq. intros k.
  rewrite forEach_lookup, lookup_union, delete_id by done.
  destruct (sprops !! k) as [sv|] eqn:Hs.
  - destruct (Hflat k sv Hs) as [Hk Hcase].
    rewrite creates_property_ordinary by done. unfold stored_at.
    destruct Hcase as [->| ->]; [|rewrite andb_false_r]; by destruct (tprops !! k).
  - by destruct (tprops !! k).
Qed.

End merge.




(** C9.  [deepMerge({a:{x:1}}, {a:{y:2}})] is [{a:{x:1,y:2}}]: the nested
    objects under the shared key are united. *)
Theorem deepMerge_nested_union :
  deepMerge (VObj {[ "a" := VObj {[ "x" := VInt 1 ]} ]})
            (VObj {[ "a" := VObj {[ "y" := VInt 2 ]} ]})
  = VObj {[ "a" := VObj {[ "x" := VInt 1; "y" := VInt 2 ]} ]}.
Proof. vm_compute. reflexivity. Qed.

(** C1, at the input where the code leaves the claim.  The base holds the
    number 1 under [a], the overlay holds the plain object [{y:2}] there.
    Only one of the two values is a plain object, so the claim gives the
    overlay's value [{y:2}]; the code calls [deepMerge(1, {y:2})], which
    returns the empty copy [Object.assign({}, 1)], and the result is
    [{a:{}}]. *)
Theorem deepMerge_object_over_number :
  deepMerge (VObj {[ "a" := VInt 1 ]}) (VObj {[ "a" := VObj {[ "y" := VInt 2 ]} ]})
    = VObj {[ "a" := empty_object ]}
  ∧ VObj {[ "a" := empty_object ]} ≠ VObj {[ "a" := VObj {[ "y" := VInt 2 ]} ]}.
Proof.
  split; [vm_compute; reflexivity|].
  intros H.
  apply (f_equal (fun v => match v with VObj m => m !! "a" | _ => None end)) in H.
  rewrite !lookup_singleton_eq in H. unfold empty_object in H.
  apply (f_equal (fun o => match o with Some (VObj m) => m !! "y" | _ => None end)) in H.
  by rewrite lookup_empty, lookup_singleton_eq in H.
Qed.

(** * Properties of the settings resolution and of the entry point *)

Section host.
Implicit Types (w : world) (filePath folder : string) (os : os_arg).

Lemma bind_returned {A B} (c : M A) (k : A → M B) a w w' :
  c w = (Returned a, w') → (c ≫= k) w = k a w'.
Proof. intros H. run. by rewrite H. Qed.

Lemma bind_thrown {A B} (c : M A) (k : A → M B) e w w' :
  c w = (Thrown e, w') → (c ≫= k) w = (Thrown e, w').
Proof. intros H. run. by rewrite H. Qed.

(** [list.map(f)] for an [f] that returns without touching the world. *)
Lemma mapM_returned {A B} (f : A → M B) (g : A → B) (l : list A) w :
  (∀ a, f a w = (Returned (g a), w)) →
  mapM f l w = (Returned (g <$> l), w).
Proof.
  intros Hf. induction l as [|a l IH]; [done|]. simpl.
  rewrite (bind_returned _ _ _ _ _ (Hf a)).
  by rewrite (bind_returned _ _ _ _ _ IH).
Qed.

Lemma same_host_refl w : same_host w w.
Proof. by repeat split. Qed.

Lemma same_host_trans w1 w2 w3 : same_host w1 w2 → same_host w2 w3 → same_host w1 w3.
Proof. unfold same_host. intros (->&->&->&->) (->&->&->&->). done. Qed.

Lemma same_host_notify m w : same_host w (notify m w).
Proof. by repeat split. Qed.

Lemma getFileContent_missing filePath w :
  disk w !! filePath = None →
  getFileContent filePath w =
    (Returned empty_object,
     notify (ErrorMessage ("Settings file not found: " +:+ filePath)) w).
Proof.
  intros H. unfold getFileContent, fileExists. run. by rewrite H.
Qed.

Lemma getFileContent_not_json filePath reason w :
  disk w !! filePath = Some (Readable (NotJson reason)) →
  getFileContent filePath w =
    (Returned empty_object,
     notify (ErrorMessage ("Error reading settings file: " +:+ reason)) w).
Proof.
  intros H. unfold getFileContent, fileExists, readFile. run. by repeat (rewrite H; simpl).
Qed.

Lemma getFileContent_unreadable filePath reason w :
  disk w !! filePath = Some (Unreadable reason) →
  getFileContent filePath w =
    (Returned empty_object,
     notify (ErrorMessage ("Error reading settings file: " +:+ reason)) w).
Proof.
  intros H. unfold getFileContent, fileExists, readFile. run. by repeat (rewrite H; simpl).
Qed.

Lemma getFileContent_json filePath v w :
  disk w !! filePath = Some (Readable (JsonText v)) →
  getFileContent filePath w = (Returned v, w).
Proof.
  intros H. unfold getFileContent, fileExists, readFile. run. by repeat (rewrite H; simpl).
Qed.

(** Reading never throws, and what it returns is truthy unless the file
    parses to a falsy value. *)
Lemma getFileContent_returns filePath w :
  ∃ v w', getFileContent filePath w = (Returned v, w') ∧ same_host w w' ∧
    (truthy v = true ∨ disk w !! filePath = Some (Readable (JsonText v))).
Proof.
  destruct (disk w !! filePath) as [[reason|[reason|v]]|] eqn:H.
  - rewrite (getFileContent_unreadable _ reason) by done.
    eauto 6 using same_host_notify.
  - rewrite (getFileContent_not_json _ reason) by done.
    eauto 6 using same_host_notify.
  - rewrite (getFileContent_json _ v) by done. eauto 6 using same_host_refl.
  - rewrite getFileContent_missing by done. eauto 6 using same_host_notify.
Qed.

Lemma getSettingFilePath_open os folder rest w :
  workspaceFolders w = Some (folder :: rest) →
  getSettingFilePath os w = (Returned (settings_path folder os), w).
Proof. intros H. unfold getSettingFilePath. by rewrite H. Qed.

Lemma getSettingFilePath_closed os w :
  workspaceFolders w = None →
  getSettingFilePath os w =
    (Thrown "Cannot read properties of undefined (reading '0')", w).
Proof. intros H. unfold getSettingFilePath. by rewrite H. Qed.

Lemma getSettingsFileContent_open os folder rest w :
  workspaceFolders w = Some (folder :: rest) →
  getSettingsFileContent os w = getFileContent (settings_path folder os) w.
Proof.
  intros H. unfold getSettingsFileContent. run.
  by rewrite (getSettingFilePath_open _ folder rest).
Qed.

Lemma getDefaultSettingsFileContent_truthy v w w' :
  getSettingsFileContent (OsTag "all") w = (Returned v, w') →
  truthy v = true →
  getDefaultSettingsFileContent w = (Returned v, w').
Proof.
  intros H Hv. unfold getDefaultSettingsFileContent. run.
  by rewrite H, Hv.
Qed.


Lemma getDefaultSettingsFileContent_all_missing folder rest w :
  workspaceFolders w = Some (folder :: rest) →
  disk w !! settings_path folder (OsTag "all") = None →
  getDefaultSettingsFileContent w =
    (Returned empty_object,
     notify (ErrorMessage ("Settings file not found: " +:+
                           settings_path folder (OsTag "all"))) w).
Proof.
  intros Hw Hd. apply getDefaultSettingsFileContent_truthy; [|done].
  rewrite (getSettingsFileContent_open _ folder rest) by done.
  by apply getFileContent_missing.
Qed.

Lemma getDefaultSettingsFileContent_returns folder rest w :
  workspaceFolders w = Some (folder :: rest) →
  ∃ v w', getDefaultSettingsFileContent w = (Returned v, w') ∧ same_host w w'.
Proof.
  intros Hw. unfold getDefaultSettingsFileContent. run.
  rewrite (getSettingsFileContent_open _ folder rest) by done.
  destruct (getFileContent_returns (settings_path folder (OsTag "all")) w)
    as (v & w1 & -> & Hh1 & _).
  destruct (truthy v); [eauto|].
  rewrite (getSettingsFileContent_open _ folder rest)
    by (destruct Hh1 as (-> & _); done).
  destruct (getFileContent_returns (settings_path folder OsUndefined) w1)
    as (v2 & w2 & -> & Hh2 & _).
  destruct (truthy v2); eauto using same_host_trans.
Qed.

Lemma isValid_open folder rest w :
  workspaceFolders w = Some (folder :: rest) →
  isValid w =
    (Returned (bool_decide (is_Some (disk w !! settings_path folder (OsTag "all")))
               || bool_decide (is_Some (disk w !! settings_path folder (OsTag "windows")))
               || bool_decide (is_Some (disk w !! settings_path folder (OsTag "macos")))
               || bool_decide (is_Some (disk w !! settings_path folder (OsTag "linux")))),
     w).
Proof.
  intros H. unfold isValid.
  rewrite (bind_returned _ _ _ w w
             (mapM_returned _ (λ tag, settings_path folder (OsTag tag)) _ w
                (λ tag, getSettingFilePath_open (OsTag tag) folder rest w H))).
  by rewrite (bind_returned _ _ _ w w
                (mapM_returned fileExists _ _ w (λ _, eq_refl))).
Qed.

Lemma isValid_closed w :
  workspaceFolders w = None →
  isValid w = (Thrown "Cannot read properties of undefined (reading '0')", w).
Proof.
  intros H. unfold isValid.
  apply bind_thrown. simpl. by apply bind_thrown, getSettingFilePath_closed.
Qed.

Lemma getOsName_returns w :
  ∃ os w', getOsName w = (Returned os, w') ∧ same_host w w'.
Proof.
  unfold getOsName. destruct (own_property PLATFORMS (platform w)).
  - eauto using same_host_refl.
  - run. eexists _, _. split; [done|]. by repeat split.
Qed.

(** Whatever happens inside, [createFileIfNotExists] returns; on the
    disk it changes nothing. *)
Lemma createFileIfNotExists_returns filePath content w :
  ∃ w', createFileIfNotExists filePath content w = (Returned tt, w') ∧ same_host w w'.
Proof.
  unfold createFileIfNotExists, fs_without_callback, console_error, console_log. run.
  eexists. split; [done|]. by repeat split.
Qed.

(** In an open workspace [updateSettingsFile] either returns or rejects
    with the error of the write; nothing else is thrown. *)
Lemma updateSettingsFile_outcome newSettings folder rest w :
  workspaceFolders w = Some (folder :: rest) →
  ∃ w', (updateSettingsFile newSettings w = (Returned tt, w')
         ∨ ∃ error partial,
             updateSettingsFile newSettings w = (Thrown error, w')
             ∧ write_failure w (settings_path folder OsUndefined)
               = Some (Failure error partial))
        ∧ workspaceFolders w' = workspaceFolders w.
Proof.
  intros Hw. unfold updateSettingsFile. run.
  rewrite (getSettingFilePath_open _ folder rest) by done.
  set (found := bool_decide _).
  assert (∃ w1, (if negb found
                 then createFileIfNotExists (settings_path folder OsUndefined) "{}"
                 else λ w0, (Returned tt, w0)) w = (Returned tt, w1) ∧ same_host w w1)
    as (w1 & -> & Hh1).
  { destruct found; simpl; eauto using same_host_refl, createFileIfNotExists_returns. }
  destruct (getDefaultSettingsFileContent_returns folder rest w1)
    as (defaultSettings & w2 & -> & Hh2).
  { destruct Hh1 as (-> & _). done. }
  pose proof (same_host_trans _ _ _ Hh1 Hh2) as (Hws & _ & _ & Hwf).
  unfold writeFile. rewrite Hwf.
  destruct (write_failure w _) as [[error [partial|]]|] eqn:Hfail.
  - eexists. split; [right; eauto|done].
  - exists w2. split; [right; eauto|done].
  - eexists. split; [left; done|done].
Qed.

(** In an open workspace the entry point returns: every failure it meets
    ends in a notification, none in a rejection. *)
Lemma vsCodeUpdateSettingsFile_open_returns folder rest w :
  workspaceFolders w = Some (folder :: rest) →
  ∃ w', vsCodeUpdateSettingsFile w = (Returned tt, w').
Proof.
  intros Hw. unfold vsCodeUpdateSettingsFile. run.
  rewrite (isValid_open folder rest) by done.
  destruct (negb _); [unfold showErrorMessage; eauto|].
  rewrite Hw.
  destruct (getOsName_returns w) as (os & w1 & -> & Hh1).
  assert (workspaceFolders w1 = Some (folder :: rest)) as Hw1.
  { destruct Hh1 as (-> & _). done. }
  rewrite (getSettingsFileContent_open _ folder rest) by done.
  destruct (getFileContent_returns (settings_path folder os) w1)
    as (osSettings & w2 & -> & Hh2 & _).
  assert (workspaceFolders w2 = Some (folder :: rest)) as Hw2.
  { destruct Hh2 as (-> & _). done. }
  destruct (updateSettingsFile_outcome osSettings folder rest w2 Hw2)
    as (w3 & [-> | (error & partial & -> & _)] & _).
  - unfold showInformationMessage. eauto.
  - unfold showErrorMessage. eauto.
Qed.

Lemma isValid_no_folder w :
  workspaceFolders w = Some [] →
  isValid w = (Thrown "Cannot read properties of undefined (reading 'uri')", w).
Proof.
  intros H. unfold isValid.
  apply bind_thrown. simpl. apply bind_thrown.
  unfold getSettingFilePath. by rewrite H.
Qed.

(** With an empty list of folders the entry point rejects as well. *)
Lemma vsCodeUpdateSettingsFile_no_folder w :
  workspaceFolders w = Some [] →
  vsCodeUpdateSettingsFile w =
    (Thrown "Cannot read properties of undefined (reading 'uri')", w).
Proof.
  intros H. unfold vsCodeUpdateSettingsFile. run. by rewrite isValid_no_folder.
Qed.

Lemma vsCodeUpdateSettingsFile_closed w :
  workspaceFolders w = None →
  vsCodeUpdateSettingsFile w =
    (Thrown "Cannot read properties of undefined (reading '0')", w).
Proof.
  intros H. unfold vsCodeUpdateSettingsFile. run. by rewrite isValid_closed.
Qed.
End host.


(** C6.  Reading a settings file whose content is not JSON returns the
    empty mapping: the parse error is caught, shown as a notification, and
    not thrown to the caller. *)
Theorem getFileContent_malformed_json filePath reason w :
  disk w !! filePath = Some (Readable (NotJson reason)) →
  getFileContent filePath w =
    (Returned empty_object,
     notify (ErrorMessage ("Error reading settings file: " +:+ reason)) w).
Proof. apply getFileContent_not_json. Qed.

Lemma getFileContent_malformed_json_witness :
  getFileContent "/w/.vscode/settings.linux.json" broken_linux =
    (Returned empty_object,
     notify (ErrorMessage ("Error reading settings file: " +:+
                           "Unexpected end of JSON input")) broken_linux).
Proof.
  apply (getFileContent_malformed_json
           "/w/.vscode/settings.linux.json" "Unexpected end of JSON input" broken_linux).
  vm_compute. reflexivity.
Defined.

(** C7.  In a workspace where none of the candidate settings files exists,
    resolving the default settings returns the empty mapping, and so does
    reading any of the candidates; nothing is thrown. *)
Theorem resolution_without_files folder rest w :
  workspaceFolders w = Some (folder :: rest) →
  (∀ os, os ∈ candidates → disk w !! settings_path folder os = None) →
  (∃ w', getDefaultSettingsFileContent w = (Returned empty_object, w')) ∧
  (∀ os, os ∈ candidates →
     ∃ w', getSettingsFileContent os w = (Returned empty_object, w')
           ∧ getFileContent (settings_path folder os) w = (Returned empty_object, w')).
Proof.
  intros Hw Hnone. split.
  - rewrite (getDefaultSettingsFileContent_all_missing folder rest);
      [eauto|done|].
    apply Hnone. unfold candidates. set_solver.
  - intros os Hos.
    rewrite (getSettingsFileContent_open _ folder rest) by done.
    rewrite getFileContent_missing by auto. eauto.
Qed.

Lemma resolution_without_files_witness :
  (∃ w', getDefaultSettingsFileContent (workspace_with ∅) = (Returned empty_object, w')) ∧
  (∀ os, os ∈ candidates →
     ∃ w', getSettingsFileContent os (workspace_with ∅) = (Returned empty_object, w')
           ∧ getFileContent (settings_path "/w" os) (workspace_with ∅)
             = (Returned empty_object, w')).
Proof.
  apply (resolution_without_files "/w" [] (workspace_with ∅)).
  - reflexivity.
  - intros os _. apply lookup_empty.
Defined.




(** C4, at the input where the code leaves the claim.  The workspace holds
    the generic [settings.json] with [{a:1}] and [settings.linux.json] with
    [{b:2}], and no [settings.all.json]; [isValid] accepts it.
    [getFileContent] answers the missing [all] file with [{}], which is
    truthy, so [if (all)] returns it: the generic file is not read, and the
    default settings are the empty mapping.  The entry point then writes
    the merge of [{}] and [{b:2}] over [settings.json], and the [{a:1}] it
    held is gone. *)
Theorem missing_all_hides_generic :
  fst (isValid generic_and_linux) = Returned true
  ∧ disk generic_and_linux !! settings_path "/w" (OsTag "all") = None
  ∧ disk generic_and_linux !! settings_path "/w" OsUndefined
    = Some (json_file (VObj {[ "a" := VInt 1 ]}))
  ∧ getDefaultSettingsFileContent generic_and_linux =
      (Returned empty_object,
       notify (ErrorMessage "Settings file not found: /w/.vscode/settings.all.json")
              generic_and_linux)
  ∧ ∃ w', vsCodeUpdateSettingsFile generic_and_linux = (Returned tt, w')
          ∧ disk w' !! settings_path "/w" OsUndefined
            = Some (json_file (VObj {[ "b" := VInt 2 ]})).
Proof.
  split_and!; [vm_compute; reflexivity..| |].
  - by rewrite (getDefaultSettingsFileContent_all_missing "/w" []).
  - eexists. split; vm_compute; reflexivity.
Qed.




(** C2, at the input where the code leaves the claim.  With no workspace
    folder open, [vscode.workspace.workspaceFolders] is [undefined].  The
    entry point first awaits [isValid()], which computes the settings paths
    from [workspaceFolders[0]] and throws a [TypeError]; the test
    [if (!workspaceFolders)] that would show 'No workspace folder opened.'
    comes after it and is not reached.  The entry point rejects, and shows
    nothing. *)
Theorem no_workspace_rejects platform disk write_failure shown console :
  vsCodeUpdateSettingsFile (World None platform disk write_failure shown console) =
    (Thrown "Cannot read properties of undefined (reading '0')",
     World None platform disk write_failure shown console).
Proof. by apply vsCodeUpdateSettingsFile_closed. Qed.

(** * Properties of the merge over a store *)

Module StoreFacts.
Import Store.

Section store.
Implicit Types (h : store) (v target source : ref_value) (l output : loc).
Implicit Types (key : string) (keys : list string) (proto : prototype).

Lemma alloc_spec c h :
  h !! fresh (dom h) = None ∧ h ⊆ <[fresh (dom h) := c]> h.
Proof.
  assert (h !! fresh (dom h) = None) by apply not_elem_of_dom, is_fresh.
  split; [done|by apply insert_subseteq].
Qed.

Lemma deepMerge_S fuel target source h :
  deepMerge (S fuel) target source h =
    let proto := prototype_after_assign h target in
    let output := fresh (dom h) in
    let h1 := <[output := Obj (Object_assign_empty h target)]> h in
    if isObject h1 target && isObject h1 source then
      h2 ← forEach (Object_keys h1 source)
             (merge_key (deepMerge fuel) target source proto output) h1;
      Some (Ref output, h2)
    else Some (Ref output, h1).
Proof. reflexivity. Qed.

Lemma set_frame h0 h proto output key v :
  h0 ⊆ h → h0 !! output = None → h0 ⊆ set proto output key v h.
Proof.
  intros Hsub Hnone. unfold set.
  destruct (h !! output) as [[props|]|]; [|done..].
  destruct (creates_property h proto key); [|done].
  by apply insert_subseteq_r.
Qed.

Lemma set_output h proto output key v props :
  h !! output = Some (Obj props) →
  set proto output key v h !! output =
    Some (Obj (if creates_property h proto key then <[key := v]> props else props)).
Proof.
  intros H. unfold set. rewrite H.
  destruct (creates_property h proto key); [apply lookup_insert_eq|done].
Qed.

Lemma forEach_invariant (I : store → Prop) keys body h h' :
  (∀ key hx hy, I hx → body key hx = Some hy → I hy) →
  I h → forEach keys body h = Some h' → I h'.
Proof.
  intros Hbody. revert h. induction keys as [|key keys IH]; intros h Hh; simpl.
  - by intros [= <-].
  - destruct (body key h) as [hx|] eqn:Hk; [|done]. simpl. eauto.
Qed.

Lemma forEach_returns (I : store → Prop) keys body h :
  (∀ key hx, key ∈ keys → I hx → ∃ hy, body key hx = Some hy ∧ I hy) →
  I h → ∃ h', forEach keys body h = Some h' ∧ I h'.
Proof.
  revert h. induction keys as [|key keys IH]; intros h Hbody Hh; simpl.
  - eauto.
  - destruct (Hbody key h) as (hx & -> & Hx); [left|done|]. simpl.
    apply IH; [|done]. intros k hy Hk. apply Hbody. by right.
Qed.

(** The cells a call finds in the store are still there, unchanged, when
    it returns; its result is an object at an address that was free. *)
Lemma deepMerge_frame fuel target source h r h' :
  deepMerge fuel target source h = Some (r, h') →
  h ⊆ h' ∧ ∃ output props,
    r = Ref output ∧ h !! output = None ∧ h' !! output = Some (Obj props).
Proof.
  revert target source h r h'.
  induction fuel as [|fuel IH]; intros target source h r h'; [done|].
  rewrite deepMerge_S.
  destruct (alloc_spec (Obj (Object_assign_empty h target)) h) as [Hfree Hh1].
  set (proto := prototype_after_assign h target).
  set (output := fresh (dom h)) in *.
  set (h1 := <[output := _]> h) in *.
  cbv zeta. fold output. fold h1.
  pose proof Hh1 as Hsub.
  assert (h1 !! output = Some (Obj (Object_assign_empty h target))) as Hout
    by apply lookup_insert_eq.
  destruct (isObject h1 target && isObject h1 source); cycle 1.
  { intros [= <- <-]. eauto 6. }
  destruct (forEach _ _ h1) as [h2|] eqn:Hloop; [|done]. simpl.
  intros [= <- <-].
  apply (forEach_invariant
           (λ hx, h ⊆ hx ∧ ∃ props, hx !! output = Some (Obj props))) in Hloop.
  - destruct Hloop as (? & props & ?). eauto 6.
  - clear Hloop. intros key hx hy (Hx & props & Hox) Hbody.
    assert (∀ v, h ⊆ set proto output key v hx ∧
                 ∃ props', set proto output key v hx !! output = Some (Obj props')) as Hset.
    { intros v. split; [by apply set_frame|]. erewrite set_output; eauto. }
    unfold merge_key in Hbody.
    destruct (isObject hx _); [|by injection Hbody as <-].
    destruct (negb _); [by injection Hbody as <-|].
    destruct (deepMerge fuel _ _ hx) as [[merged hz]|] eqn:Hrec; [|done].
    simpl in Hbody. injection Hbody as <-.
    apply IH in Hrec as (Hxz & _).
    split.
    + apply set_frame; [by trans hx|done].
    + erewrite set_output; [eauto|]. by eapply lookup_weaken.
  - eauto.
Qed.

Lemma isObject_weaken h h' v : h ⊆ h' → isObject h v = true → isObject h' v = true.
Proof.
  intros Hsub. destruct v as [| | | | |l| |]; try done. unfold isObject.
  destruct (h !! l) as [c|] eqn:Hl; [|done].
  by rewrite (lookup_weaken _ _ _ _ Hl Hsub).
Qed.

Lemma own_props_weaken h h' l c :
  h ⊆ h' → h !! l = Some c → own_props h' (Ref l) = own_props h (Ref l).
Proof.
  intros Hsub Hl. unfold own_props. by rewrite Hl, (lookup_weaken _ _ _ _ Hl Hsub).
Qed.

Lemma depth_within_weaken fuel h h' v :
  h ⊆ h' → depth_within fuel h v = true → depth_within fuel h' v = true.
Proof.
  intros Hsub. revert v. induction fuel as [|fuel IH]; intros v; [done|].
  destruct v as [| | | | |l| |]; try done. cbn [depth_within].
  destruct (h !! l) as [c|] eqn:Hl; [|done].
  rewrite (lookup_weaken _ _ _ _ Hl Hsub).
  destruct c as [props|]; [|done].
  rewrite !forallb_forall. intros Hall kv Hin. apply IH, Hall, Hin.
Qed.

(** With fuel above the depth of [source], the call returns. *)
Lemma deepMerge_returns fuel target source h :
  depth_within fuel h source = true →
  is_Some (deepMerge fuel target source h).
Proof.
  revert target source h.
  induction fuel as [|fuel IH]; intros target source h Hdepth; [done|].
  rewrite deepMerge_S.
  destruct (alloc_spec (Obj (Object_assign_empty h target)) h) as [Hfree Hsub].
  set (proto := prototype_after_assign h target).
  set (output := fresh (dom h)) in *.
  set (h1 := <[output := _]> h) in *. cbv zeta. fold output. fold h1.
  destruct (isObject h1 target && isObject h1 source) eqn:Hboth; [|done].
  apply andb_true_iff in Hboth as [_ Hsobj].
  destruct source as [| | | | |ls| |]; try done.
  cbn [depth_within] in Hdepth.
  destruct (h !! ls) as [[sprops|]|] eqn:Hls; [| |done]; cycle 1.
  { unfold isObject in Hsobj. by rewrite (lookup_weaken _ _ _ _ Hls Hsub) in Hsobj. }
  rewrite forallb_forall in Hdepth.
  destruct (forEach_returns
              (λ hx, h ⊆ hx ∧ ∃ props, hx !! output = Some (Obj props))
              (Object_keys h1 (Ref ls))
              (merge_key (deepMerge fuel) target (Ref ls) proto output) h1)
    as (h2 & -> & _); [| |done].
  - intros key hx Hkey (Hx & props & Hox).
    assert (∀ v, h ⊆ set proto output key v hx ∧
                 ∃ props', set proto output key v hx !! output = Some (Obj props')) as Hset.
    { intros v. split; [by apply set_frame|]. erewrite set_output; eauto. }
    unfold merge_key.
    destruct (isObject hx _); [|eauto].
    destruct (negb _); [eauto|].
    assert (depth_within fuel hx (get hx (Ref ls) key) = true) as Hfits.
    { apply (depth_within_weaken _ h); [done|].
      unfold Object_keys in Hkey. rewrite (own_props_weaken h h1 ls _ Hsub Hls) in Hkey.
      apply list_elem_of_fmap in Hkey as ([k x] & -> & Hkx).
      unfold get. rewrite (own_props_weaken h hx ls _ Hx Hls).
      unfold own_props in *. rewrite Hls in *.
      pose proof Hkx as Hin. apply elem_of_map_to_list in Hkx. simpl. rewrite Hkx.
      apply (Hdepth (k, x)), list_elem_of_In, Hin. }
    destruct (IH (get hx target key) _ hx Hfits) as [[merged hz] Hrec].
    rewrite Hrec. simpl. eexists. split; [done|].
    apply deepMerge_frame in Hrec as (Hxz & _).
    split.
    + apply set_frame; [by trans hx|done].
    + erewrite set_output; [eauto|]. by eapply lookup_weaken.
  - split; [done|]. eexists. apply lookup_insert_eq.
Qed.
End store.

(** ** The merge over the store computes the merge of JSON values *)

#[local] Arguments read : simpl never.
#[local] Arguments Store.deepMerge : simpl never.

Section refine.
Implicit Types (h hb : gmap positive cell) (v target source : ref_value).
Implicit Types (x tv sv : value) (tj : Json.target) (n : nat).
Implicit Types (key k : string).

Lemma read_S_Ref n h l :
  read (S n) h (Ref l) =
    match h !! l with
    | Some (Obj props) =>
        if bool_decide (map_Forall (fun _ v => is_Some (read n h v)) props)
        then Some (VObj (omap (read n h) props))
        else None
    | Some (Arr elems) => VArr <$> mapM (read n h) elems
    | None => None
    end.
Proof. reflexivity. Qed.

(** Reading an object whose properties can all be read. *)
Lemma read_object n h l props :
  h !! l = Some (Obj props) →
  map_Forall (fun _ v => is_Some (read n h v)) props →
  read (S n) h (Ref l) = Some (VObj (omap (read n h) props)).
Proof. intros Hl Hall. rewrite read_S_Ref, Hl. by rewrite bool_decide_eq_true_2. Qed.

(** Two readings of the properties agree when the second store and fuel
    read at least what the first read. *)
Lemma omap_read_agree n m h h' (props : gmap string ref_value) :
  (∀ v x, read n h v = Some x → read m h' v = Some x) →
  map_Forall (fun _ v => is_Some (read n h v)) props →
  map_Forall (fun _ v => is_Some (read m h' v)) props ∧
  omap (read m h') props = omap (read n h) props.
Proof.
  intros Hmono Hall. split.
  - intros k v Hk. destruct (Hall k v Hk) as [x Hx]. eauto.
  - apply map_eq. intros k. rewrite !lookup_omap.
    destruct (props !! k) as [v|] eqn:Hk; [|done]. simpl.
    destruct (Hall k v Hk) as [x Hx]. by rewrite Hx, (Hmono _ _ Hx).
Qed.

Lemma mapM_read_agree n m h h' (elems : list ref_value) xs :
  (∀ v x, read n h v = Some x → read m h' v = Some x) →
  mapM (read n h) elems = Some xs → mapM (read m h') elems = Some xs.
Proof.
  intros Hmono. rewrite !mapM_Some. intros Hall.
  eapply Forall2_impl; [exact Hall|]. auto.
Qed.

(** A value read in a store is read in every larger store. *)
Lemma read_weaken n h h' v x :
  h ⊆ h' → read n h v = Some x → read n h' v = Some x.
Proof.
  intros Hsub. revert v x. induction n as [|n IH]; intros v x.
  { destruct v; done. }
  destruct v as [| | | | |l| |]; try done.
  rewrite !read_S_Ref.
  destruct (h !! l) as [[props|elems]|] eqn:Hl; [| |done];
    rewrite (lookup_weaken _ _ _ _ Hl Hsub).
  - case_bool_decide as Hall; [|done]. intros [= <-].
    destruct (omap_read_agree n n h h' props IH Hall) as [Hall' ->].
    by rewrite bool_decide_eq_true_2.
  - destruct (mapM (read n h) elems) as [xs|] eqn:Hxs; [|done].
    by rewrite (mapM_read_agree n n h h' elems xs IH Hxs).
Qed.

(** ... and with more fuel. *)
Lemma read_more_fuel n h v x :
  read n h v = Some x → read (S n) h v = Some x.
Proof.
  revert v x. induction n as [|n IH]; intros v x.
  { destruct v; done. }
  destruct v as [| | | | |l| |]; try done.
  rewrite (read_S_Ref (S n)), read_S_Ref.
  destruct (h !! l) as [[props|elems]|] eqn:Hl; [| |done].
  - case_bool_decide as Hall; [|done]. intros [= <-].
    destruct (omap_read_agree n (S n) h h props IH Hall) as [Hall' ->].
    by rewrite bool_decide_eq_true_2.
  - destruct (mapM (read n h) elems) as [xs|] eqn:Hxs; [|done].
    by rewrite (mapM_read_agree n (S n) h h elems xs IH Hxs).
Qed.

Lemma read_mono n h h' v x :
  h ⊆ h' → read n h v = Some x → read (S n) h' v = Some x.
Proof. intros. by apply read_more_fuel, (read_weaken n h). Qed.

Lemma read_target_value n h v x :
  read n h v = Some x → read_target n h v = Some (Json x).
Proof. destruct v, n; try done; unfold read_target; by intros ->. Qed.

Lemma read_target_weaken n h h' v tj :
  h ⊆ h' → read_target n h v = Some tj → read_target n h' v = Some tj.
Proof.
  intros Hsub. destruct v; try done; unfold read_target;
    (destruct (read n h _) as [y|] eqn:Hy; [|done]);
    by rewrite (read_weaken _ _ _ _ _ Hsub Hy).
Qed.

(** [isObject] on a readable value is [isObject] on what it reads as. *)
Lemma isObject_read n h h' v x :
  h ⊆ h' → read n h v = Some x → Store.isObject h' v = Json.isObject x.
Proof.
  intros Hsub. destruct v as [| | | | |l| |], n as [|n]; try by intros [= <-].
  rewrite read_S_Ref. unfold Store.isObject.
  destruct (h !! l) as [[props|elems]|] eqn:Hl; [| |done];
    rewrite (lookup_weaken _ _ _ _ Hl Hsub).
  - case_bool_decide; [|done]. by intros [= <-].
  - destruct (mapM _ _); [|done]. by intros [= <-].
Qed.

Lemma isObject_read_target n h h' v tj :
  h ⊆ h' → read_target n h v = Some tj → Store.isObject h' v = Json.isObject tj.
Proof.
  intros Hsub. destruct v; try (by intros [= <-]); unfold read_target;
    (destruct (read n h _) as [y|] eqn:Hy; [|done]); intros [= <-];
    by apply (isObject_read n h).
Qed.

(** The indexed properties of a list, read element by element. *)
Lemma omap_indexed (f : ref_value → option value) (g : nat → string)
    (elems : list ref_value) (xs : list value) :
  Forall2 (fun v x => f v = Some x) elems xs →
  map_Forall (fun _ v => is_Some (f v))
    (list_to_map (imap (fun i v => (g i, v)) elems) : gmap string ref_value) ∧
  omap f (list_to_map (imap (fun i v => (g i, v)) elems) : gmap string ref_value)
    = list_to_map (imap (fun i x => (g i, x)) xs).
Proof.
  intros Hall. revert g. induction Hall as [|v x elems xs Hv _ IH]; intros g.
  { split; [apply map_Forall_empty|apply omap_empty]. }
  destruct (IH (g ∘ S)) as [IH1 IH2]. simpl. split.
  - apply map_Forall_insert_2; [eauto|exact IH1].
  - erewrite omap_insert_Some by done. f_equal. exact IH2.
Qed.

Lemma read_Str n h units : read n h (Str units) = Some (VStr units).
Proof. by destruct n. Qed.

(** The own properties of a target read as the own properties of what the
    target reads as. *)
Lemma own_props_read n hb hs target tj :
  hb ⊆ hs → read_target n hb target = Some tj →
  own_props hs target = own_props hb target ∧
  map_Forall (fun _ v => is_Some (read n hs v)) (own_props hb target) ∧
  omap (read n hs) (own_props hb target) = own_enumerable tj.
Proof.
  intros Hsub.
  destruct target as [| | | |s|l| |], n as [|n]; try (by intros [= <-]).
  - intros [= <-]. split; [done|].
    apply omap_indexed, Forall2_fmap, Forall_Forall2_diag, Forall_forall.
    intros c _. apply read_Str.
  - intros [= <-]. split; [done|].
    apply omap_indexed, Forall2_fmap, Forall_Forall2_diag, Forall_forall.
    intros c _. apply read_Str.
  - unfold read_target. rewrite read_S_Ref. unfold own_props.
    destruct (hb !! l) as [[props|elems]|] eqn:Hl; [| |done];
      rewrite (lookup_weaken _ _ _ _ Hl Hsub).
    + case_bool_decide as Hall; [|done]. intros [= <-]. split; [done|].
      apply (omap_read_agree n (S n) hb hs); [|done].
      intros v x. by apply read_mono.
    + destruct (mapM (read n hb) elems) as [xs|] eqn:Hxs; [|done].
      intros [= <-]. split; [done|].
      apply omap_indexed. apply mapM_Some in Hxs.
      eapply Forall2_impl; [exact Hxs|]. intros v x. by apply read_mono.
Qed.

(** The copy [Object.assign({}, target)] reads as the copy of what the
    target reads as. *)
Lemma Object_assign_empty_read n hb hs target tj :
  hb ⊆ hs → read_target n hb target = Some tj →
  Store.Object_assign_empty hs target = Store.Object_assign_empty hb target ∧
  map_Forall (fun _ v => is_Some (read n hs v)) (Store.Object_assign_empty hb target) ∧
  omap (read n hs) (Store.Object_assign_empty hb target) = Json.Object_assign_empty tj.
Proof.
  intros Hsub Htj.
  destruct (own_props_read n hb hs target tj Hsub Htj) as (Hown & Hall & Hread).
  unfold Store.Object_assign_empty, Json.Object_assign_empty.
  rewrite Hown, omap_delete, Hread. split_and!; [done| |done].
  by apply map_Forall_delete.
Qed.

(** The prototype the copy ends with decides the same way in both
    models whether an assignment creates a property. *)
Lemma creates_property_read n hb hs target tj key :
  hb ⊆ hs → read_target n hb target = Some tj →
  Store.creates_property hs (Store.prototype_after_assign hb target) key =
    Json.creates_property (Json.prototype_after_assign tj) key.
Proof.
  intros Hsub Htj.
  destruct (own_props_read n hb hb target tj) as (_ & Hall & Hread); [done..|].
  unfold Store.creates_property, Json.creates_property. f_equal.
  unfold Store.prototype_after_assign, Json.prototype_after_assign.
  rewrite <-Hread, lookup_omap.
  destruct (own_props hb target !! "__proto__") as [p|] eqn:Hp; [|done].
  destruct (Hall _ _ Hp) as [pv Hpv]. cbn [mbind option_bind]. rewrite Hpv.
  destruct p as [| | | | |l| |], n as [|n]; try done; try (by injection Hpv as <-).
  rewrite read_S_Ref in Hpv. cbn [Store.proto_key_is_data].
  destruct (hb !! l) as [[props|elems]|] eqn:Hl; [| |done];
    rewrite (lookup_weaken _ _ _ _ Hl Hsub).
  - case_bool_decide as Hprops; [|done]. injection Hpv as <-.
    cbn [Json.proto_key_is_data]. rewrite lookup_omap.
    destruct (props !! "__proto__") as [q|] eqn:Hq; cbn [mbind option_bind].
    + destruct (Hprops _ _ Hq) as [qv ->].
      by rewrite !bool_decide_eq_true_2 by eauto.
    + by rewrite !bool_decide_eq_false_2 by by intros [? [=]].
  - destruct (mapM _ _); [|done]. by injection Hpv as <-.
Qed.

(** A target that is a plain object, seen through the store. *)
Lemma read_target_object n hb hx target tj :
  hb ⊆ hx → read_target (S n) hb target = Some tj → Json.isObject tj = true →
  map_Forall (fun _ v => is_Some (read n hb v)) (own_props hb target) ∧
  omap (read n hb) (own_props hb target) = own_enumerable tj ∧
  (∀ key, has hx target key = has_property tj key) ∧
  (∀ key, has hx target key = true →
     read_target n hb (Store.get hx target key) = Some (Json.get tj key)).
Proof.
  intros Hsub Htj Hobj.
  destruct (own_props_read (S n) hb hx target tj Hsub Htj) as (Hown & _ & _).
  destruct target as [| | | | |l| |]; try done; try (by injection Htj as <-).
  - (* an object of the store *)
    unfold read_target in Htj. rewrite read_S_Ref in Htj.
    unfold has, Store.get. rewrite Hown. unfold own_props.
    destruct (hb !! l) as [[props|elems]|] eqn:Hl; [| |done]; cycle 1.
    { destruct (mapM _ _); [|done]. by injection Htj as <-. }
    case_bool_decide as Hall; [|done]. injection Htj as <-.
    cbn [own_enumerable has_property Json.get].
    assert (∀ key, bool_decide (is_Some (props !! key))
                   = bool_decide (is_Some (omap (read n hb) props !! key))) as Hdom.
    { intros key. rewrite lookup_omap.
      destruct (props !! key) as [p|] eqn:Hp; cbn [mbind option_bind].
      - destruct (Hall _ _ Hp) as [pv ->]. by rewrite !bool_decide_eq_true_2 by eauto.
      - by rewrite !bool_decide_eq_false_2 by by intros [? [=]]. }
    split_and!; [done|done|by intros key; rewrite Hdom|].
    intros key Hhas. rewrite lookup_omap.
    destruct (props !! key) as [p|] eqn:Hp; cbn [mbind option_bind].
    + destruct (Hall _ _ Hp) as [pv Hpv]. rewrite Hpv. by apply read_target_value.
    + rewrite bool_decide_eq_false_2 in Hhas by by intros [? [=]].
      cbn [orb] in Hhas. case_bool_decide; [done|]. by rewrite Hhas.
  - (* [Object.prototype] *)
    injection Htj as <-. unfold has, Store.get. cbn [own_props].
    split_and!; [apply map_Forall_empty|apply omap_empty|done|].
    intros key Hhas. rewrite lookup_empty. cbn [Json.get].
    case_bool_decide; [by destruct n|]. by rewrite Hhas.
Qed.

Lemma not_elem_of_snoc (k key : string) (pre : list string) :
  k ∉ (pre ++ [key])%list → (k ∉ pre) ∧ (key ≠ k).
Proof.
  rewrite not_elem_of_app, not_elem_of_cons. intros (? & ? & _). by split.
Qed.

Lemma elem_of_snoc_ne (k key : string) (pre : list string) :
  k ∈ (pre ++ [key])%list → k ≠ key → k ∈ pre.
Proof.
  rewrite elem_of_app, elem_of_cons, elem_of_nil. intros [?|[?|[]]] ?; done.
Qed.

(** A loop whose invariant speaks about the keys already visited. *)
Lemma forEach_prefix (I : list string → gmap positive cell → Prop) keys body h :
  I [] h →
  (∀ pre key post hx,
     keys = (pre ++ key :: post)%list → I pre hx →
     ∃ hy, body key hx = Some hy ∧ I (pre ++ [key])%list hy) →
  ∃ h', forEach keys body h = Some h' ∧ I keys h'.
Proof.
  intros Hinit Hstep.
  cut (∀ post pre hx, keys = (pre ++ post)%list → I pre hx →
         ∃ h', forEach post body hx = Some h' ∧ I keys h').
  { intros Hgen. by apply (Hgen keys []). }
  induction post as [|key post IH]; intros pre hx Hkeys Hpre; simpl.
  - rewrite app_nil_r in Hkeys. subst. eauto.
  - destruct (Hstep pre key post hx Hkeys Hpre) as (hy & -> & Hy). simpl.
    apply (IH (pre ++ [key])%list); [|done]. by rewrite <-app_assoc.
Qed.

Lemma read_VObj_inv n hb v (m : gmap string value) :
  read n hb v = Some (VObj m) →
  ∃ n' l props,
    n = S n' ∧ v = Ref l ∧ hb !! l = Some (Obj props) ∧
    m = omap (read n' hb) props ∧
    map_Forall (fun _ v => is_Some (read n' hb v)) props.
Proof.
  destruct v as [| | | | |l| |], n as [|n]; try done.
  rewrite read_S_Ref.
  destruct (hb !! l) as [[props|elems]|] eqn:Hl; [| |done].
  - case_bool_decide; [|done]. intros [= <-]. eauto 10.
  - by destruct (mapM _ _).
Qed.

(** The call when [target] and [source] are not both plain objects: the
    result is the fresh copy. *)
Lemma deepMerge_refines_copy n target source h hb tj sv :
  hb ⊆ h → read_target n hb target = Some tj →
  h !! fresh (dom h) = None →
  Json.isObject tj && Json.isObject sv = false →
  ∃ hb',
    hb ⊆ hb' ∧ hb' ⊆ <[fresh (dom h) := Obj (Store.Object_assign_empty h target)]> h ∧
    (∀ l, is_Some (h !! l) → hb' !! l = hb !! l) ∧
    read (S n) hb' (Ref (fresh (dom h))) = Some (Json.deepMerge tj sv).
Proof.
  intros Hsub Htj Hfree Hnot.
  set (output := fresh (dom h)) in *.
  assert (hb !! output = None) as Hfreeb by by eapply lookup_weaken_None.
  destruct (Object_assign_empty_read n hb h target tj Hsub Htj) as (-> & _ & _).
  exists (<[output := Obj (Store.Object_assign_empty hb target)]> hb). split_and!.
  - by apply insert_subseteq.
  - by apply insert_mono.
  - intros l [c Hl]. apply lookup_insert_ne. intros <-. congruence.
  - rewrite deepMerge_not_both by done.
    destruct (Object_assign_empty_read n hb
                (<[output := Obj (Store.Object_assign_empty hb target)]> hb)
                target tj) as (_ & Hall & <-); [by apply insert_subseteq|done|].
    apply read_object; [apply lookup_insert_eq|done].
Qed.

(** The call on a store [h] of which the part [hb] holds the arguments:
    the result reads, in [hb] extended with the cells of the call, as the
    merge of what the arguments read as. *)
Lemma deepMerge_refines_within n :
  ∀ target source h hb tj sv,
    hb ⊆ h → read_target n hb target = Some tj → read n hb source = Some sv →
    ∃ output h' hb',
      deepMerge (S n) target source h = Some (Ref output, h') ∧
      hb ⊆ hb' ∧ hb' ⊆ h' ∧
      (∀ l, is_Some (h !! l) → hb' !! l = hb !! l) ∧
      read (S n) hb' (Ref output) = Some (Json.deepMerge tj sv).
Proof.
  induction n as [n IH] using lt_wf_ind.
  intros target source h hb tj sv Hsub Htj Hsv.
  rewrite deepMerge_S.
  destruct (alloc_spec (Obj (Store.Object_assign_empty h target)) h) as [Hfree Hsub1].
  set (output := fresh (dom h)) in *.
  set (h1 := <[output := _]> h) in *. cbv zeta. fold output. fold h1.
  rewrite (isObject_read_target n hb h1 target tj), (isObject_read n hb h1 source sv)
    by (done || by trans h).
  destruct (Json.isObject tj && Json.isObject sv) eqn:Hboth; cycle 1.
  { destruct (deepMerge_refines_copy n target source h hb tj sv)
      as (hb' & ? & ? & ? & ?); eauto 10. }
  apply andb_true_iff in Hboth as [Htobj Hsobj].
  destruct sv as [| | | | |sm]; try done.
  apply read_VObj_inv in Hsv as (n' & ls & sp & -> & -> & Hls & -> & Hsall).
  assert (hb !! output = None) as Hfreeb by by eapply lookup_weaken_None.
  assert (hb ⊆ h1) as Hsubb by by trans h.
  pose proof (lookup_weaken _ _ _ _ Hls Hsubb) as Hls1.
  destruct (Object_assign_empty_read (S n') hb h target tj Hsub Htj) as (Hcopy & _ & _).
  destruct (own_props_read (S n') hb h target tj Hsub Htj) as (Hown & _ & _).
  unfold Store.prototype_after_assign. rewrite Hown.
  fold (Store.prototype_after_assign hb target).
  set (proto := Store.prototype_after_assign hb target).
  set (jproto := Json.prototype_after_assign tj).
  assert (∀ hx key, hb ⊆ hx →
            Store.creates_property hx proto key = Json.creates_property jproto key)
    as Hcreates.
  { intros hx key Hhx. by apply (creates_property_read (S n')). }
  destruct (read_target_object n' hb hb target tj) as (Htall0 & Hown_read & _ & _);
    [done..|].
  set (tp := Store.Object_assign_empty hb target) in *.
  set (tm := Json.Object_assign_empty tj).
  assert (map_Forall (fun _ v => is_Some (read n' hb v)) tp) as Htall
    by by apply map_Forall_delete.
  assert (omap (read n' hb) tp = tm) as Htm.
  { unfold tp, tm, Store.Object_assign_empty, Json.Object_assign_empty.
    by rewrite omap_delete, Hown_read. }
  set (sm := omap (read n' hb) sp) in *.
  assert (∀ hx k, hb ⊆ hx → tp !! k ≫= read (S n') hx = tm !! k) as Htp.
  { intros hx k Hhx. rewrite <-Htm, lookup_omap.
    destruct (tp !! k) as [t_k|] eqn:Htk; [|done]. cbn [mbind option_bind].
    destruct (Htall k t_k Htk) as [tvk Htvk]. rewrite Htvk.
    by apply (read_mono n' hb). }
  destruct (forEach_prefix
    (λ pre hx, ∃ hbx props,
       hb ⊆ hbx ∧ hbx ⊆ hx ∧ h ⊆ hx ∧
       (∀ l, is_Some (h1 !! l) → hbx !! l = hb !! l) ∧
       hx !! output = Some (Obj props) ∧
       (∀ k, k ∉ pre → props !! k = tp !! k) ∧
       (∀ k, k ∈ pre →
          if Json.creates_property jproto k
          then ∃ y svk,
                 props !! k = Some y ∧ sm !! k = Some svk ∧
                 read (S n') hbx y = Some (stored_at Json.deepMerge tj k svk)
          else props !! k = tp !! k))
    (Object_keys h1 (Ref ls))
    (merge_key (deepMerge (S n')) target (Ref ls) proto output) h1)
    as (h2 & -> & hb2 & props2 & Hb2 & Hb2h & Hh2 & Hold & Hout2 & Hrest & Hdone).
  - exists hb, tp. split_and!; try done.
    + unfold h1. rewrite Hcopy. apply lookup_insert_eq.
    + intros k Hk. by apply elem_of_nil in Hk.
  - intros pre key post hx Hkeys
      (hbx & props & Hbx & Hbxh & Hhx & Hold & Hout & Hrest & Hdone).
    assert (hbx !! output = None) as Hfreex.
    { rewrite Hold; [done|]. eexists. apply lookup_insert_eq. }
    assert (hb ⊆ hx) as Hbhx by by trans hbx.
    assert (∀ l, is_Some (h1 !! l) → is_Some (hx !! l)) as Hlive.
    { intros l [c Hl]. unfold h1 in Hl.
      destruct (decide (l = output)) as [->|Hne]; [eauto|].
      rewrite lookup_insert_ne in Hl by done.
      exists c. by eapply lookup_weaken. }
    assert (∃ s_k, sp !! key = Some s_k) as [s_k Hsk].
    { assert (key ∈ Object_keys h1 (Ref ls)) as Hin.
      { rewrite Hkeys. apply elem_of_app. right. left. }
      unfold Object_keys, own_props in Hin. rewrite Hls1 in Hin.
      apply list_elem_of_fmap in Hin as ([k s_k] & -> & Hin).
      apply elem_of_map_to_list in Hin. eauto. }
    destruct (Hsall key s_k Hsk) as [svk Hsvk].
    assert (sm !! key = Some svk) as Hsmk.
    { unfold sm. by rewrite lookup_omap, Hsk. }
    assert (props !! key = tp !! key ∨ Json.creates_property jproto key = true)
      as Hkey.
    { destruct (decide (key ∈ pre)) as [Hin|Hnin]; [|left; by apply Hrest].
      specialize (Hdone key Hin).
      destruct (Json.creates_property jproto key); [by right|by left]. }
    assert (∀ y hz hbz,
      hbx ⊆ hbz → hbz ⊆ hz → hx ⊆ hz →
      (∀ l, is_Some (hx !! l) → hbz !! l = hbx !! l) →
      read (S n') hbz y = Some (stored_at Json.deepMerge tj key svk) →
      ∃ hbx' props',
        hb ⊆ hbx' ∧ hbx' ⊆ set proto output key y hz ∧
        h ⊆ set proto output key y hz ∧
        (∀ l, is_Some (h1 !! l) → hbx' !! l = hb !! l) ∧
        set proto output key y hz !! output = Some (Obj props') ∧
        (∀ k, k ∉ (pre ++ [key])%list → props' !! k = tp !! k) ∧
        (∀ k, k ∈ (pre ++ [key])%list →
           if Json.creates_property jproto k
           then ∃ y' svk',
                  props' !! k = Some y' ∧ sm !! k = Some svk' ∧
                  read (S n') hbx' y' = Some (stored_at Json.deepMerge tj k svk')
           else props' !! k = tp !! k)) as Hstore.
    { intros y hz hbz Hxz Hzz Hhz Holdz Hy.
      assert (hbz !! output = None) as Hfreez.
      { rewrite Holdz; [done|]. eauto. }
      exists hbz,
        (if Json.creates_property jproto key then <[key := y]> props else props).
      split_and!.
      - by trans hbx.
      - by apply set_frame.
      - apply set_frame; [by trans hx|done].
      - intros l Hl. rewrite Holdz; [by apply Hold|by apply Hlive].
      - erewrite set_output by by eapply lookup_weaken.
        rewrite Hcreates; [done|]. trans hbx; [done|]. by trans hbz.
      - intros k Hk. apply not_elem_of_snoc in Hk as [Hk Hne].
        destruct (Json.creates_property jproto key);
          [rewrite lookup_insert_ne by done|]; by apply Hrest.
      - intros k Hk. destruct (decide (k = key)) as [->|Hne].
        + destruct (Json.creates_property jproto key) eqn:Hc.
          * exists y, svk. by rewrite lookup_insert_eq.
          * by destruct Hkey.
        + assert (k ∈ pre) as Hpre by by apply (elem_of_snoc_ne k key).
          specialize (Hdone k Hpre).
          assert ((if Json.creates_property jproto key
                   then <[key := y]> props else props) !! k = props !! k) as ->.
          { destruct (Json.creates_property jproto key); [|done].
            by rewrite lookup_insert_ne. }
          destruct (Json.creates_property jproto k); [|done].
          destruct Hdone as (y' & svk' & ? & ? & Hy').
          exists y', svk'. split_and!; try done. by apply (read_weaken _ hbx). }
    unfold merge_key.
    assert (Store.get hx (Ref ls) key = s_k) as ->.
    { unfold Store.get, own_props. by rewrite (lookup_weaken _ _ _ _ Hls Hbhx), Hsk. }
    rewrite (isObject_read n' hb hx s_k svk) by done.
    destruct (read_target_object n' hb hx target tj) as (_ & _ & Hhas & Hget);
      [done..|].
    rewrite Hhas.
    assert (read (S n') hbx s_k = Some svk) as Hsvkx by by apply (read_mono n' hb).
    destruct (Json.isObject svk) eqn:Hobjk; cycle 1.
    { eexists. split; [done|]. apply (Hstore s_k hx hbx); try done.
      unfold stored_at. by rewrite Hobjk. }
    destruct (has_property tj key) eqn:Hhask; cbn [negb]; cycle 1.
    { eexists. split; [done|]. apply (Hstore s_k hx hbx); try done.
      unfold stored_at. by rewrite Hobjk, Hhask. }
    destruct (IH n' (Nat.lt_succ_diag_r n') (Store.get hx target key) s_k hx hbx
                (Json.get tj key) svk)
      as (out_k & hz & hbz & Hrun & Hbz & Hbzh & Holdz & Hread).
    { done. }
    { apply (read_target_weaken n' hb); [done|]. apply Hget. by rewrite Hhas. }
    { by apply (read_weaken n' hb). }
    rewrite Hrun. cbn [mbind option_bind]. eexists. split; [done|].
    pose proof Hrun as Hframe. apply deepMerge_frame in Hframe as (Hxz & _).
    apply (Hstore (Ref out_k) hz hbz); try done.
    rewrite Hread. unfold stored_at. by rewrite Hobjk, Hhask.
  - cbn [mbind option_bind]. exists output, h2, (<[output := Obj props2]> hb2).
    assert (hb2 !! output = None) as Hfree2.
    { rewrite Hold; [done|]. eexists. apply lookup_insert_eq. }
    assert (hb2 ⊆ <[output := Obj props2]> hb2) as Hsub2 by by apply insert_subseteq.
    assert (hb ⊆ <[output := Obj props2]> hb2) as Hsub3 by by trans hb2.
    split_and!.
    + done.
    + done.
    + by apply insert_subseteq_l.
    + intros l [c Hl]. rewrite lookup_insert_ne by (intros <-; congruence).
      apply Hold. exists c. unfold h1. rewrite lookup_insert_ne; [done|].
      intros <-. congruence.
    + assert (∀ k, props2 !! k ≫= read (S n') (<[output := Obj props2]> hb2) =
                match sm !! k with
                | Some svk =>
                    if Json.creates_property jproto k
                    then Some (stored_at Json.deepMerge tj k svk)
                    else tm !! k
                | None => tm !! k
                end) as Hlookup.
      { intros k. destruct (decide (k ∈ Object_keys h1 (Ref ls))) as [Hin|Hnin].
        - assert (is_Some (sm !! k)) as [svk Hsmk].
          { unfold Object_keys, own_props in Hin. rewrite Hls1 in Hin.
            apply list_elem_of_fmap in Hin as ([k' s_k] & -> & Hin).
            apply elem_of_map_to_list in Hin. cbn [fst].
            destruct (Hsall _ _ Hin) as [svk Hsvk].
            exists svk. unfold sm. by rewrite lookup_omap, Hin. }
          specialize (Hdone k Hin). rewrite Hsmk.
          destruct (Json.creates_property jproto k).
          + destruct Hdone as (y & svk' & -> & Hsmk' & Hy). cbn [mbind option_bind].
            rewrite Hsmk in Hsmk'. injection Hsmk' as <-.
            by apply (read_weaken _ hb2).
          + rewrite Hdone. by apply Htp.
        - rewrite Hrest by done.
          assert (sp !! k = None) as Hspk.
          { apply eq_None_not_Some. intros [s_k Hsk]. apply Hnin.
            unfold Object_keys, own_props. rewrite Hls1.
            apply list_elem_of_fmap. exists (k, s_k). split; [done|].
            by apply elem_of_map_to_list. }
          unfold sm. rewrite lookup_omap, Hspk. cbn [mbind option_bind].
          by apply Htp. }
      rewrite deepMerge_both by done.
      erewrite read_object; [|apply lookup_insert_eq|].
      * do 2 f_equal. apply map_eq. intros k.
        by rewrite lookup_omap, forEach_lookup, Hlookup.
      * intros k y Hk. specialize (Hlookup k). rewrite Hk in Hlookup.
        cbn [mbind option_bind] in Hlookup. rewrite Hlookup.
        destruct (sm !! k) as [svk|] eqn:Hsmk.
        { destruct (Json.creates_property jproto k) eqn:Hc; [done|].
          rewrite <-Hlookup.
          destruct (decide (k ∈ Object_keys h1 (Ref ls))) as [Hin|Hnin].
          - specialize (Hdone k Hin). rewrite Hc, Hk in Hdone.
            symmetry in Hdone. destruct (Htall _ _ Hdone) as [tvk Htvk].
            exists tvk. by apply (read_mono n' hb).
          - rewrite Hrest in Hk by done.
            destruct (Htall _ _ Hk) as [tvk Htvk].
            exists tvk. by apply (read_mono n' hb). }
        rewrite <-Hlookup.
        destruct (decide (k ∈ Object_keys h1 (Ref ls))) as [Hin|Hnin].
        { exfalso. unfold Object_keys, own_props in Hin. rewrite Hls1 in Hin.
          apply list_elem_of_fmap in Hin as ([k' s_k] & -> & Hin).
          apply elem_of_map_to_list in Hin. cbn [fst] in Hsmk.
          destruct (Hsall _ _ Hin) as [svk Hsvk].
          unfold sm in Hsmk. by rewrite lookup_omap, Hin in Hsmk; cbn in Hsmk;
            rewrite Hsvk in Hsmk. }
        rewrite Hrest in Hk by done.
        destruct (Htall _ _ Hk) as [tvk Htvk].
        exists tvk. by apply (read_mono n' hb).
Qed.

(** The merge over the store computes the merge of JSON values: when the
    arguments read as the JSON values [tv] and [sv], the call returns, and
    its result reads as [deepMerge tv sv]. *)
Lemma deepMerge_refines n target source h tv sv :
  read n h target = Some tv → read n h source = Some sv →
  ∃ output h',
    deepMerge (S n) target source h = Some (Ref output, h') ∧
    read (S n) h' (Ref output) = Some (Json.deepMerge tv sv).
Proof.
  intros Htv Hsv.
  destruct (deepMerge_refines_within n target source h h tv sv)
    as (output & h' & hb' & Hrun & _ & Hsub & _ & Hread);
    [done|by apply read_target_value|done|].
  exists output, h'. split; [done|]. by apply (read_weaken _ hb').
Qed.
End refine.

(** C10.  Whenever the nesting of [source] is within the fuel, the call
    returns a reference to a new object, at an address that was free
    before the call, and every cell of the store before the call (so the
    target, the source, and everything they reach at any depth) is still
    there with the same contents afterwards. *)
Theorem deepMerge_leaves_arguments fuel target source (h : gmap positive cell) :
  depth_within fuel h source = true →
  ∃ output props h',
    deepMerge fuel target source h = Some (Ref output, h') ∧
    h !! output = None ∧ h' !! output = Some (Obj props) ∧
    ∀ l c, h !! l = Some c → h' !! l = Some c.
Proof.
  intros Hdepth.
  destruct (deepMerge_returns fuel target source h Hdepth) as [[r h'] Hrun].
  destruct (deepMerge_frame _ _ _ _ _ _ Hrun) as (Hsub & output & props & -> & Hfree & Hout).
  exists output, props, h'. repeat split; try done.
  intros l c Hl. by eapply lookup_weaken.
Qed.

Lemma deepMerge_leaves_arguments_witness :
  ∃ output props h',
    deepMerge 3 (Ref 1) (Ref 3) two_nested = Some (Ref output, h') ∧
    two_nested !! output = None ∧ h' !! output = Some (Obj props) ∧
    ∀ l c, two_nested !! l = Some c → h' !! l = Some c.
Proof.
  apply (deepMerge_leaves_arguments 3 (Ref 1) (Ref 3) two_nested).
  vm_compute. reflexivity.
Defined.

(** ** Sharing between the result and the arguments *)

Section sharing.
Implicit Types (h : gmap positive cell) (v sv : ref_value).

Lemma isObject_closed n h h' v :
  depth_within n h v = true → h ⊆ h' → isObject h' v = isObject h v.
Proof.
  destruct n as [|n]; [done|]. destruct v as [| | | | |l| |]; try done.
  cbn [depth_within]. unfold isObject.
  destruct (h !! l) as [c|] eqn:Hl; [|done].
  intros _ Hsub. by rewrite (lookup_weaken _ _ _ _ Hl Hsub).
Qed.

Lemma set_creates_ordinary h proto key :
  key ≠ "__proto__" → creates_property h proto key = true.
Proof. intros Hk. unfold creates_property. by rewrite bool_decide_eq_false_2. Qed.

(** X11.  Merging two plain objects in the store: the result is a new
    object.  At every key but [__proto__]: under a key of the target alone
    it holds the target's value; under a key whose source value is not a
    plain object, or that the target neither has nor inherits, it holds
    the source's value itself (for an object or an array the same
    reference, not a copy); and only where the code recurses does it hold
    a newly allocated object. *)
Theorem deepMerge_shares fuel lt ls tprops sprops h :
  h !! lt = Some (Obj tprops) → h !! ls = Some (Obj sprops) →
  depth_within fuel h (Ref ls) = true →
  ∃ output props h',
    deepMerge fuel (Ref lt) (Ref ls) h = Some (Ref output, h') ∧
    h !! output = None ∧ h' !! output = Some (Obj props) ∧
    ∀ key, key ≠ "__proto__" →
      match sprops !! key with
      | None => props !! key = tprops !! key
      | Some sv => shares h (Ref lt) key sv (props !! key)
      end.
Proof.
  intros Hlt Hls Hdepth. destruct fuel as [|fuel]; [done|].
  cbn [depth_within] in Hdepth. rewrite Hls, forallb_forall in Hdepth.
  rewrite deepMerge_S.
  destruct (alloc_spec (Obj (Object_assign_empty h (Ref lt))) h) as [Hfree Hsub].
  set (proto := prototype_after_assign h (Ref lt)).
  set (output := fresh (dom h)) in *.
  set (h1 := <[output := _]> h) in *. cbv zeta. fold output. fold h1.
  pose proof (lookup_weaken _ _ _ _ Hlt Hsub) as Hlt1.
  pose proof (lookup_weaken _ _ _ _ Hls Hsub) as Hls1.
  unfold isObject at 1 2. rewrite Hlt1, Hls1. cbn [andb].
  assert (Object_keys h1 (Ref ls) = (map_to_list sprops).*1) as Hkeys.
  { unfold Object_keys, own_props. by rewrite Hls1. }
  destruct (forEach_prefix
    (λ pre hx, h ⊆ hx ∧ ∃ props,
       hx !! output = Some (Obj props) ∧
       (∀ k, k ≠ "__proto__" → k ∉ pre → props !! k = tprops !! k) ∧
       (∀ k, k ≠ "__proto__" → k ∈ pre →
          ∃ sv, sprops !! k = Some sv ∧ shares h (Ref lt) k sv (props !! k)))
    (Object_keys h1 (Ref ls))
    (merge_key (deepMerge fuel) (Ref lt) (Ref ls) proto output) h1)
    as (h2 & -> & Hh2 & props & Hout & Hrest & Hdone).
  - split; [done|]. exists (delete "__proto__" tprops). split_and!.
    + unfold h1, Object_assign_empty, own_props. rewrite Hlt. apply lookup_insert_eq.
    + intros k Hk _. by apply lookup_delete_ne.
    + intros k _ Hk. by apply elem_of_nil in Hk.
  - intros pre key post hx Hpre (Hx & props & Hout & Hrest & Hdone).
    assert (∃ sv, sprops !! key = Some sv ∧ (key, sv) ∈ map_to_list sprops)
      as (sv & Hsv & Hin).
    { assert (key ∈ (map_to_list sprops).*1) as Hin.
      { rewrite <-Hkeys, Hpre. apply elem_of_app. right. left. }
      apply list_elem_of_fmap in Hin as ([k sv] & -> & Hin).
      exists sv. split; [by apply elem_of_map_to_list|done]. }
    assert (depth_within fuel h sv = true) as Hfits
      by (apply (Hdepth (key, sv)), list_elem_of_In, Hin).
    assert (∀ stored hz,
      hx ⊆ hz →
      (key ≠ "__proto__" → shares h (Ref lt) key sv (Some stored)) →
      h ⊆ set proto output key stored hz ∧ ∃ props',
        set proto output key stored hz !! output = Some (Obj props') ∧
        (∀ k, k ≠ "__proto__" → k ∉ (pre ++ [key])%list → props' !! k = tprops !! k) ∧
        (∀ k, k ≠ "__proto__" → k ∈ (pre ++ [key])%list →
           ∃ sv', sprops !! k = Some sv' ∧
                  shares h (Ref lt) k sv' (props' !! k))) as Hstore.
    { intros stored hz Hxz Hstored.
      split; [apply set_frame; [by trans hx|done]|].
      eexists. split_and!.
      - apply set_output. by eapply lookup_weaken.
      - intros k Hproto Hk. apply not_elem_of_snoc in Hk as [Hk Hne].
        destruct (creates_property hz proto key);
          [rewrite lookup_insert_ne by done|]; by apply Hrest.
      - intros k Hproto Hk. destruct (decide (k = key)) as [->|Hne].
        + exists sv. rewrite set_creates_ordinary by done.
          rewrite lookup_insert_eq. auto.
        + destruct (creates_property hz proto key);
            [rewrite lookup_insert_ne by done|];
            by apply Hdone, (elem_of_snoc_ne k key). }
    unfold merge_key.
    assert (get hx (Ref ls) key = sv) as ->.
    { unfold get, own_props. by rewrite (lookup_weaken _ _ _ _ Hls Hx), Hsv. }
    assert (has hx (Ref lt) key = has h (Ref lt) key) as ->.
    { unfold has, own_props. by rewrite Hlt, (lookup_weaken _ _ _ _ Hlt Hx). }
    rewrite (isObject_closed fuel h hx sv Hfits Hx).
    destruct (isObject h sv) eqn:Hobj; cycle 1.
    { eexists. split; [done|]. apply Hstore; [done|].
      intros _. unfold shares. by rewrite Hobj. }
    destruct (has h (Ref lt) key) eqn:Hhas; cbn [negb]; cycle 1.
    { eexists. split; [done|]. apply Hstore; [done|].
      intros _. unfold shares. by rewrite Hobj, Hhas. }
    destruct (deepMerge_returns fuel (get hx (Ref lt) key) sv hx)
      as [[merged hz] Hrec]; [by apply (depth_within_weaken _ h)|].
    rewrite Hrec. cbn [mbind option_bind].
    destruct (deepMerge_frame _ _ _ _ _ _ Hrec) as (Hxz & l & ? & -> & Hl & _).
    eexists. split; [done|]. apply Hstore; [done|].
    intros _. unfold shares. rewrite Hobj, Hhas. exists l. split; [done|].
    by eapply lookup_weaken_None.
  - cbn [mbind option_bind]. exists output, props, h2.
    split_and!; [done..|]. intros key Hproto.
    destruct (sprops !! key) as [sv|] eqn:Hsv.
    + destruct (Hdone key Hproto) as (sv' & Hsv' & Hshares).
      { rewrite Hkeys. apply list_elem_of_fmap. exists (key, sv).
        split; [done|]. by apply elem_of_map_to_list. }
      by simplify_eq.
    + apply Hrest; [done|]. rewrite Hkeys. intros Hin.
      apply list_elem_of_fmap in Hin as ([k sv] & -> & Hin).
      apply elem_of_map_to_list in Hin. simpl in Hsv. congruence.
Qed.

(** X10.  On arguments that read as JSON values the call over the store
    returns, its result is a new object that reads as the merge of those
    JSON values, and both arguments still read as the same JSON values
    afterwards. *)
Theorem deepMerge_on_json n target source h (tj sj : value) :
  read n h target = Some tj → read n h source = Some sj →
  ∃ output h',
    deepMerge (S n) target source h = Some (Ref output, h') ∧
    h !! output = None ∧
    read (S n) h' (Ref output) = Some (Json.deepMerge tj sj) ∧
    read n h' target = Some tj ∧ read n h' source = Some sj.
Proof.
  intros Htv Hsv.
  destruct (deepMerge_refines n target source h tj sj Htv Hsv)
    as (output & h' & Hrun & Hread).
  destruct (deepMerge_frame _ _ _ _ _ _ Hrun) as (Hsub & l & props & [= <-] & Hfree & _).
  exists output, h'. split_and!; [done..| |]; by apply (read_weaken n h).
Qed.
End sharing.

Lemma deepMerge_shares_witness :
  ∃ output props h',
    deepMerge 3 (Ref 1) (Ref 3) two_disjoint = Some (Ref output, h') ∧
    two_disjoint !! output = None ∧ h' !! output = Some (Obj props) ∧
    ∀ key, key ≠ "__proto__" →
      match ({[ "b" := Ref 4 ]} : gmap string ref_value) !! key with
      | None => props !! key = ({[ "a" := Ref 2 ]} : gmap string ref_value) !! key
      | Some sv => shares two_disjoint (Ref 1) key sv (props !! key)
      end.
Proof.
  apply (deepMerge_shares 3 1 3 {[ "a" := Ref 2 ]} {[ "b" := Ref 4 ]} two_disjoint);
    vm_compute; reflexivity.
Defined.

Lemma deepMerge_on_json_witness :
  ∃ output h',
    deepMerge 3 (Ref 1) (Ref 3) two_nested = Some (Ref output, h') ∧
    two_nested !! output = None ∧
    read 3 h' (Ref output) =
      Some (Json.deepMerge (VObj {[ "a" := VObj {[ "x" := VInt 1 ]} ]})
                           (VObj {[ "a" := VObj {[ "y" := VInt 2 ]} ]})) ∧
    read 2 h' (Ref 1) = Some (VObj {[ "a" := VObj {[ "x" := VInt 1 ]} ]}) ∧
    read 2 h' (Ref 3) = Some (VObj {[ "a" := VObj {[ "y" := VInt 2 ]} ]}).
Proof.
  apply (deepMerge_on_json 2 (Ref 1) (Ref 3) two_nested);
    vm_compute; reflexivity.
Defined.

End StoreFacts.

(** * Further properties of the merge *)

(** X1.  The result of merging two mappings is a mapping whose keys, the
    name [__proto__] apart, are the keys of the base together with the
    keys of the overlay: no other key is dropped, none is invented. *)
Theorem deepMerge_keys (tprops sprops : gmap string value) :
  ∃ result,
    deepMerge (VObj tprops) (VObj sprops) = VObj result ∧
    dom result ∖ {["__proto__"]} = (dom tprops ∪ dom sprops) ∖ {["__proto__"]}.
Proof.
  eexists. split; [apply deepMerge_objects|].
  eapply deepMerge_dom, deepMerge_objects.
Qed.

(** X2.  Under a key other than [__proto__] whose overlay value is not a
    plain object (a primitive, [null] or an array), or that the base
    neither has nor inherits from [Object.prototype], the result holds
    exactly the overlay's value: arrays and primitives replace, they are
    never combined with the base value. *)
Theorem overlay_value_wins (tprops sprops : gmap string value) k (sv : value) :
  k ≠ "__proto__" →
  sprops !! k = Some sv →
  isObject sv = false ∨ has_property (VObj tprops) k = false →
  ∃ result,
    deepMerge (VObj tprops) (VObj sprops) = VObj result ∧
    result !! k = Some sv.
Proof.
  intros Hk Hs Hcase. eexists. split; [apply deepMerge_objects|].
  eapply deepMerge_overlay_wins; eauto using deepMerge_objects.
Qed.

Lemma overlay_value_wins_witness :
  ∃ result,
    deepMerge (VObj {[ "a" := VObj {[ "x" := VInt 1 ]} ]})
              (VObj {[ "a" := VArr [VInt 2] ]}) = VObj result ∧
    result !! "a" = Some (VArr [VInt 2]).
Proof.
  apply (overlay_value_wins {[ "a" := VObj {[ "x" := VInt 1 ]} ]}
           {[ "a" := VArr [VInt 2] ]} "a" (VArr [VInt 2])).
  - discriminate.
  - vm_compute. reflexivity.
  - left. reflexivity.
Defined.

(** X3.  Under a key other than [__proto__] that both mappings have and
    whose overlay value is a plain object, the result holds [deepMerge] of
    the base value and the overlay value, whatever the base value is. *)
Theorem nested_objects_are_merged (tprops sprops : gmap string value) k (tv sv : value) :
  k ≠ "__proto__" →
  tprops !! k = Some tv → sprops !! k = Some sv → isObject sv = true →
  ∃ result,
    deepMerge (VObj tprops) (VObj sprops) = VObj result ∧
    result !! k = Some (deepMerge tv sv).
Proof.
  intros Hk Ht Hs Hobj. eexists. split; [apply deepMerge_objects|].
  eapply deepMerge_recursive; eauto using deepMerge_objects.
Qed.

Lemma nested_objects_are_merged_witness :
  ∃ result,
    deepMerge (VObj {[ "a" := VObj {[ "x" := VInt 1 ]} ]})
              (VObj {[ "a" := VObj {[ "y" := VInt 2 ]} ]}) = VObj result ∧
    result !! "a" =
      Some (deepMerge (VObj {[ "x" := VInt 1 ]}) (VObj {[ "y" := VInt 2 ]})).
Proof.
  apply (nested_objects_are_merged {[ "a" := VObj {[ "x" := VInt 1 ]} ]}
           {[ "a" := VObj {[ "y" := VInt 2 ]} ]} "a");
    [discriminate|vm_compute; reflexivity..].
Defined.

(** X4.  A key of the base other than [__proto__] that the overlay does
    not have keeps the value of the base. *)
Theorem base_only_key_is_kept (tprops sprops : gmap string value) k :
  k ≠ "__proto__" →
  sprops !! k = None →
  ∃ result,
    deepMerge (VObj tprops) (VObj sprops) = VObj result ∧
    result !! k = tprops !! k.
Proof.
  intros Hk Hs. eexists. split; [apply deepMerge_objects|].
  eapply deepMerge_base_kept; eauto using deepMerge_objects.
Qed.

Lemma base_only_key_is_kept_witness :
  ∃ result,
    deepMerge (VObj {[ "a" := VInt 1 ]}) (VObj {[ "b" := VInt 2 ]}) = VObj result ∧
    result !! "a" = ({[ "a" := VInt 1 ]} : gmap string value) !! "a".
Proof.
  apply (base_only_key_is_kept {[ "a" := VInt 1 ]} {[ "b" := VInt 2 ]} "a").
  - discriminate.
  - vm_compute. reflexivity.
Defined.

(** X5.  Under a key other than [__proto__] that both mappings have, when
    the overlay value is a plain object and the base value is not, the
    result holds neither: it holds the copy [Object.assign({}, base
    value)], which is [{}] for [null], a boolean or a number, and the
    indexed elements for an array or a string.  The overlay's object is
    lost. *)
Theorem object_over_other_is_lost (tprops sprops : gmap string value) k (tv sv : value) :
  k ≠ "__proto__" →
  tprops !! k = Some tv → sprops !! k = Some sv →
  isObject sv = true → isObject tv = false →
  ∃ result,
    deepMerge (VObj tprops) (VObj sprops) = VObj result ∧
    result !! k = Some (VObj (Object_assign_empty tv)).
Proof.
  intros Hk Ht Hs Hsv Htv. eexists. split; [apply deepMerge_objects|].
  eapply deepMerge_object_over_other; eauto using deepMerge_objects.
Qed.

Lemma object_over_other_is_lost_witness :
  ∃ result,
    deepMerge (VObj {[ "a" := VArr [VInt 7] ]})
              (VObj {[ "a" := VObj {[ "y" := VInt 2 ]} ]}) = VObj result ∧
    result !! "a" = Some (VObj (Object_assign_empty (VArr [VInt 7]))).
Proof.
  apply (object_over_other_is_lost {[ "a" := VArr [VInt 7] ]}
           {[ "a" := VObj {[ "y" := VInt 2 ]} ]} "a" (VArr [VInt 7])
           (VObj {[ "y" := VInt 2 ]}));
    [discriminate|vm_compute; reflexivity..].
Defined.

(** X6.  A key that the base does not have but inherits from
    [Object.prototype] (such as [toString] or [constructor]) counts as
    present for [key in target]: when the overlay holds a plain object
    there, the code merges it into the inherited function, and the result
    holds the empty mapping [{}].  The overlay's object is lost. *)
Theorem object_under_inherited_name_is_lost (tprops sprops : gmap string value) k (sv : value) :
  k ≠ "__proto__" → inherited k = true →
  tprops !! k = None → sprops !! k = Some sv → isObject sv = true →
  ∃ result,
    deepMerge (VObj tprops) (VObj sprops) = VObj result ∧
    result !! k = Some empty_object.
Proof.
  intros Hk Hin Ht Hs Hobj. eexists. split; [apply deepMerge_objects|].
  rewrite forEach_lookup, Hs, creates_property_ordinary by done.
  unfold stored_at. cbn [has_property get]. rewrite Hobj, Ht, Hin, orb_true_r.
  rewrite bool_decide_eq_false_2 by done. cbn [andb].
  rewrite deepMerge_not_both by done.
  unfold Object_assign_empty. cbn [own_enumerable]. by rewrite delete_empty.
Qed.

Lemma object_under_inherited_name_is_lost_witness :
  ∃ result,
    deepMerge (VObj {[ "a" := VInt 1 ]})
              (VObj {[ "toString" := VObj {[ "y" := VInt 2 ]} ]}) = VObj result ∧
    result !! "toString" = Some empty_object.
Proof.
  apply (object_under_inherited_name_is_lost {[ "a" := VInt 1 ]}
           {[ "toString" := VObj {[ "y" := VInt 2 ]} ]} "toString"
           (VObj {[ "y" := VInt 2 ]}));
    [discriminate|vm_compute; reflexivity..].
Defined.

(** X7.  Merging a mapping with itself gives the mapping back, at every
    nesting depth, provided no object on the way down has a property
    named [__proto__]. *)
Theorem deepMerge_idempotent (v : value) :
  isObject v = true → proto_free v = true → deepMerge v v = v.
Proof.
  induction v as [v IH] using (induction_ltof1 _ nodes). unfold ltof in IH.
  destruct v as [| | | | |props]; try done. intros _ Hfree.
  pose proof (proto_free_own _ Hfree) as Hproto.
  rewrite deepMerge_objects. f_equal. apply map_eq. intros k.
  rewrite forEach_lookup, delete_id by done.
  destruct (props !! k) as [x|] eqn:Hk; [|done].
  destruct (decide (k = "__proto__")) as [->|Hne]; [congruence|].
  rewrite creates_property_ordinary by done.
  unfold stored_at. cbn [has_property get]. rewrite Hk.
  rewrite bool_decide_eq_true_2 by eauto. cbn [orb]. rewrite andb_true_r.
  destruct (isObject x) eqn:Hx; [|done].
  f_equal. apply IH; [by eapply nodes_property|done|by eapply proto_free_property].
Qed.

Lemma deepMerge_idempotent_witness :
  deepMerge (VObj {[ "a" := VObj {[ "x" := VInt 1 ]} ]})
            (VObj {[ "a" := VObj {[ "x" := VInt 1 ]} ]})
  = VObj {[ "a" := VObj {[ "x" := VInt 1 ]} ]}.
Proof.
  apply (deepMerge_idempotent (VObj {[ "a" := VObj {[ "x" := VInt 1 ]} ]}));
    vm_compute; reflexivity.
Defined.

(** X8.  Merging an overlay mapping into the empty mapping gives the
    overlay, provided the overlay has no key [__proto__] and holds no
    plain object under a name that [{}] inherits from
    [Object.prototype]. *)
Theorem deepMerge_empty_base (sprops : gmap string value) :
  (∀ k (sv : value), sprops !! k = Some sv →
     k ≠ "__proto__" ∧ (isObject sv = false ∨ inherited k = false)) →
  deepMerge empty_object (VObj sprops) = VObj sprops.
Proof.
  intros Hflat. unfold empty_object. rewrite deepMerge_union.
  - by rewrite (right_id_L ∅ (∪)).
  - done.
  - intros k sv Hs. destruct (Hflat k sv Hs) as [Hk Hcase]. split; [done|].
    destruct Hcase as [?|Hin]; [by left|right].
    cbn [has_property]. rewrite Hin, lookup_empty.
    by rewrite bool_decide_eq_false_2 by by intros [? [=]].
Qed.

Lemma deepMerge_empty_base_witness :
  deepMerge empty_object (VObj {[ "a" := VObj {[ "x" := VInt 1 ]} ]})
  = VObj {[ "a" := VObj {[ "x" := VInt 1 ]} ]}.
Proof.
  apply (deepMerge_empty_base {[ "a" := VObj {[ "x" := VInt 1 ]} ]}).
  intros k sv Hk.
  destruct (decide (k = "a")) as [->|Hne].
  - split; [discriminate|right; vm_compute; reflexivity].
  - by rewrite lookup_singleton_ne in Hk.
Defined.

(** X9.  When the base has no property [__proto__], the overlay no key
    [__proto__], and no key of the overlay holds a plain object where the
    base has or inherits that key, the merge is the shallow one: the union
    of the two mappings in which the overlay's value is taken for a key of
    both. *)
Theorem deepMerge_is_union_without_nesting (tprops sprops : gmap string value) :
  tprops !! "__proto__" = None →
  (∀ k (sv : value), sprops !! k = Some sv →
     k ≠ "__proto__" ∧ (isObject sv = false ∨ has_property (VObj tprops) k = false)) →
  deepMerge (VObj tprops) (VObj sprops) = VObj (sprops ∪ tprops).
Proof. apply deepMerge_union. Qed.

Lemma deepMerge_is_union_without_nesting_witness :
  deepMerge (VObj {[ "a" := VInt 1; "b" := VInt 2 ]}) (VObj {[ "b" := VInt 3 ]})
  = VObj ({[ "b" := VInt 3 ]} ∪ {[ "a" := VInt 1; "b" := VInt 2 ]}).
Proof.
  apply (deepMerge_is_union_without_nesting
           {[ "a" := VInt 1; "b" := VInt 2 ]} {[ "b" := VInt 3 ]}).
  - vm_compute. reflexivity.
  - intros k sv Hk.
    destruct (decide (k = "b")) as [->|Hne].
    + rewrite lookup_singleton_eq in Hk. injection Hk as <-.
      split; [discriminate|by left].
    + by rewrite lookup_singleton_ne in Hk.
Defined.

(** X26.  When the base has no property named [__proto__], neither has the
    result, whatever the overlay holds under that name: the assignment
    [output['__proto__'] = ...] ends in the setter of [Object.prototype]
    and creates no property. *)
Theorem proto_key_is_not_merged (tprops sprops : gmap string value) :
  tprops !! "__proto__" = None →
  ∃ result,
    deepMerge (VObj tprops) (VObj sprops) = VObj result ∧
    result !! "__proto__" = None.
Proof.
  intros Hproto. eexists. split; [apply deepMerge_objects|].
  eapply deepMerge_proto_key; [apply deepMerge_objects|].
  by rewrite prototype_default.
Qed.

Lemma proto_key_is_not_merged_witness :
  ∃ result,
    deepMerge (VObj {[ "a" := VInt 1 ]})
              (VObj {[ "__proto__" := VObj {[ "y" := VInt 2 ]} ]}) = VObj result ∧
    result !! "__proto__" = None.
Proof.
  apply (proto_key_is_not_merged {[ "a" := VInt 1 ]}
           {[ "__proto__" := VObj {[ "y" := VInt 2 ]} ]}).
  vm_compute. reflexivity.
Defined.

(** * Further properties of the settings files and of the entry point *)

Section paths.
Implicit Types (s t name folder : string) (os : os_arg).

Lemma string_length_app s t : String.length (s +:+ t) = (String.length s + String.length t)%nat.
Proof.
  induction s as [|a s IH]; [done|].
  change (String a s +:+ t) with (String a (s +:+ t)). cbn [String.length]. by rewrite IH.
Qed.

Lemma string_app_inj_r t s1 s2 : s1 +:+ t = s2 +:+ t → s1 = s2.
Proof.
  revert s2. induction s1 as [|a s1 IH]; intros [|b s2] H; [done| | |].
  - apply (f_equal String.length) in H. rewrite !string_length_app in H. cbn in H. lia.
  - apply (f_equal String.length) in H. rewrite !string_length_app in H. cbn in H. lia.
  - change (String a (s1 +:+ t) = String b (s2 +:+ t)) in H.
    injection H as -> H. f_equal. by apply IH.
Qed.

Lemma string_app_cons a s t : String a s +:+ t = String a (s +:+ t).
Proof. done. Qed.

Lemma string_app_assoc s t u : (s +:+ t) +:+ u = s +:+ t +:+ u.
Proof. induction s as [|a s IH]; [done|]. by rewrite !string_app_cons, IH. Qed.

Lemma string_app_empty_r s : s +:+ "" = s.
Proof. induction s as [|a s IH]; [done|]. by rewrite string_app_cons, IH. Qed.

Lemma segments_not_nil s : segments s ≠ [].
Proof.
  destruct s as [|c s]; [done|]. cbn [segments].
  case_bool_decide; [done|]. by destruct (segments s).
Qed.

Lemma segments_file_name name : no_separator name = true → segments name = [name].
Proof.
  induction name as [|c name IH]; [done|].
  cbn [no_separator segments]. intros [Hc Hrest]%andb_true_iff.
  apply negb_true_iff in Hc. rewrite Hc, IH; done.
Qed.

(** A file name appended to a path is its last segment. *)
Lemma segments_app s name :
  no_separator name = true →
  segments (s +:+ "/" +:+ name) = (segments s ++ [name])%list.
Proof.
  intros Hname. induction s as [|c s IH].
  - change ("" +:+ "/" +:+ name) with (String "/" name).
    cbn [segments]. rewrite bool_decide_eq_true_2 by done.
    by rewrite segments_file_name.
  - rewrite string_app_cons. cbn [segments]. rewrite IH.
    case_bool_decide; [done|].
    pose proof (segments_not_nil s). by destruct (segments s).
Qed.

Lemma ends_with_separator_app s t :
  t ≠ "" → ends_with_separator (s +:+ t) = ends_with_separator t.
Proof.
  intros Ht. induction s as [|c s IH]; [done|].
  rewrite string_app_cons. cbn [ends_with_separator]. rewrite IH.
  destruct (s +:+ t) eqn:Hst; [|done].
  apply (f_equal String.length) in Hst. rewrite string_length_app in Hst.
  destruct t; [done|]. cbn in Hst. lia.
Qed.

Lemma ends_with_separator_file_name name :
  name ≠ "" → no_separator name = true → ends_with_separator name = false.
Proof.
  induction name as [|c name IH]; [done|]. intros _.
  cbn [no_separator ends_with_separator]. intros [Hc Hrest]%andb_true_iff.
  apply negb_true_iff in Hc.
  destruct name; [done|]. by apply IH.
Qed.

Lemma starts_with_separator_app s t :
  s ≠ "" → starts_with_separator (s +:+ t) = starts_with_separator s.
Proof. by destruct s. Qed.

Lemma push_file_name allowAboveRoot kept name :
  is_file_name name = true → push_segment allowAboveRoot kept name = name :: kept.
Proof.
  unfold is_file_name, push_segment.
  intros [[[H1 H2]%andb_true_iff H3]%andb_true_iff _]%andb_true_iff.
  apply negb_true_iff in H1, H2, H3. by rewrite H1, H2, H3.
Qed.

Lemma is_file_name_no_separator name : is_file_name name = true → no_separator name = true.
Proof. unfold is_file_name. by intros [_ ?]%andb_true_iff. Qed.

Lemma is_file_name_not_empty name : is_file_name name = true → name ≠ "".
Proof. by intros H ->. Qed.

Lemma concat_snoc sep (l : list string) x :
  l ≠ [] → String.concat sep (l ++ [x]) = String.concat sep l +:+ sep +:+ x.
Proof.
  induction l as [|y l IH]; [done|]. intros _.
  destruct l as [|z l].
  - done.
  - change (String.concat sep ((y :: z :: l) ++ [x]))
      with (y +:+ sep +:+ String.concat sep ((z :: l) ++ [x])).
    rewrite IH by done.
    change (String.concat sep (y :: z :: l)) with (y +:+ sep +:+ String.concat sep (z :: l)).
    by rewrite !string_app_assoc.
Qed.

Lemma string_app_not_empty s t : t ≠ "" → s +:+ t ≠ "".
Proof.
  intros Ht H. apply (f_equal String.length) in H. rewrite string_length_app in H.
  destruct t; [done|]. cbn in H. lia.
Qed.

(** Normalising a path that ends in two file names: the second is
    appended to the normal form of the rest. *)
Lemma path_normalize_file s dir name :
  is_file_name dir = true → is_file_name name = true →
  (s = dir ∨ ∃ s0, s = s0 +:+ "/" +:+ dir) →
  path_normalize (s +:+ "/" +:+ name) = path_normalize s +:+ "/" +:+ name.
Proof.
  intros Hdir Hname Hs.
  pose proof (is_file_name_no_separator _ Hdir) as Hdir'.
  pose proof (is_file_name_no_separator _ Hname) as Hname'.
  pose proof (is_file_name_not_empty _ Hdir) as Hdir0.
  pose proof (is_file_name_not_empty _ Hname) as Hname0.
  assert (s ≠ "") as Hs0.
  { destruct Hs as [->|[s0 ->]]; [done|]. by apply string_app_not_empty, string_app_not_empty. }
  assert (ends_with_separator s = false) as Hend.
  { destruct Hs as [->|[s0 ->]].
    - by apply ends_with_separator_file_name.
    - rewrite !ends_with_separator_app by (try apply string_app_not_empty; done).
      by apply ends_with_separator_file_name. }
  assert (∃ before, segments s = (before ++ [dir])%list) as [before Hseg].
  { destruct Hs as [->|[s0 ->]].
    - exists []. by apply segments_file_name.
    - eexists. by apply segments_app. }
  unfold path_normalize.
  rewrite bool_decide_eq_false_2 by by apply string_app_not_empty, string_app_not_empty.
  rewrite (bool_decide_eq_false_2 (s = "")) by done.
  rewrite starts_with_separator_app by done.
  rewrite !ends_with_separator_app by (try apply string_app_not_empty; done).
  rewrite (ends_with_separator_file_name name), Hend by done.
  rewrite segments_app, Hseg by done.
  rewrite !fold_left_app. cbn [fold_left].
  rewrite !push_file_name by done.
  set (kept := fold_left _ before []).
  cbn [rev]. rewrite concat_snoc by by destruct (rev kept).
  set (normalized := String.concat "/" (rev kept ++ [dir])).
  assert (normalized ≠ "") as Hnorm.
  { unfold normalized. destruct (rev kept) as [|y l]; [done|].
    rewrite concat_snoc by done. by apply string_app_not_empty, string_app_not_empty. }
  rewrite (bool_decide_eq_false_2 (normalized = "")) by done.
  rewrite bool_decide_eq_false_2 by by apply string_app_not_empty, string_app_not_empty.
  by rewrite !string_app_empty_r, !string_app_assoc.
Qed.

(** The directory of the settings files of a workspace folder. *)
Lemma settings_path_file folder os :
  is_file_name (settings_file_name os) = true →
  settings_path folder os =
    path_join [folder; ".vscode"] +:+ "/" +:+ settings_file_name os.
Proof.
  intros Hname. unfold settings_path, path_join.
  pose proof (is_file_name_not_empty _ Hname) as Hname0.
  destruct (decide (folder = "")) as [->|Hfolder].
  - rewrite !filter_cons_False by naive_solver.
    rewrite !filter_cons_True by done. rewrite !filter_nil.
    apply (path_normalize_file ".vscode" ".vscode"); [done..|by left].
  - rewrite !filter_cons_True by done. rewrite !filter_nil.
    change (String.concat "/" [folder; ".vscode"; settings_file_name os])
      with (folder +:+ "/" +:+ ".vscode" +:+ "/" +:+ settings_file_name os).
    change (String.concat "/" [folder; ".vscode"]) with (folder +:+ "/" +:+ ".vscode").
    rewrite <-(path_normalize_file _ ".vscode") by eauto.
    by rewrite !string_app_assoc.
Qed.

Lemma settings_path_inj folder os1 os2 :
  is_file_name (settings_file_name os1) = true →
  is_file_name (settings_file_name os2) = true →
  settings_path folder os1 = settings_path folder os2 →
  settings_file_name os1 = settings_file_name os2.
Proof.
  intros H1 H2. rewrite !settings_path_file by done. intros H.
  apply (inj (String.app _)) in H. by apply (inj (String.app "/")) in H.
Qed.

Lemma settings_file_name_tagged os :
  os_truthy os = true → settings_file_name os ≠ "settings.json".
Proof.
  unfold settings_file_name. intros -> H.
  apply (inj (String.app "settings.")) in H.
  apply (f_equal String.length) in H. rewrite !string_length_app in H. cbn in H. lia.
Qed.

Lemma settings_file_name_inj os1 os2 :
  os_truthy os1 = true → os_truthy os2 = true →
  settings_file_name os1 = settings_file_name os2 →
  os_to_string os1 = os_to_string os2.
Proof.
  unfold settings_file_name. intros -> -> H.
  apply (inj (String.app "settings.")) in H. by apply string_app_inj_r in H.
Qed.

Lemma no_separator_app s t :
  no_separator (s +:+ t) = no_separator s && no_separator t.
Proof.
  induction s as [|c s IH]; [done|].
  rewrite string_app_cons. cbn [no_separator]. by rewrite IH, andb_assoc.
Qed.

(** The name of a settings file is a file name, whenever the tag holds no
    separator. *)
Lemma settings_file_name_is_file_name os :
  no_separator (os_to_string os) = true → is_file_name (settings_file_name os) = true.
Proof.
  intros Hos. unfold settings_file_name. destruct (os_truthy os); [|done].
  unfold is_file_name. rewrite !no_separator_app, Hos.
  repeat (apply andb_true_iff; split); try done.
  all: apply negb_true_iff, bool_decide_eq_false; intros H;
    apply (f_equal String.length) in H; rewrite !string_length_app in H; cbn in H; lia.
Qed.

(** The generic file is none of the platform files. *)
Lemma generic_path_differs folder tag :
  tag ∈ Object_values PLATFORMS →
  settings_path folder OsUndefined ≠ settings_path folder (OsTag tag).
Proof.
  unfold Object_values, PLATFORMS. cbn [fmap list_fmap snd].
  rewrite !elem_of_cons, elem_of_nil.
  intros [->|[->|[->|[->|[]]]]] H; by apply settings_path_inj in H.
Qed.

End paths.


(** X12.  In one workspace folder, two [os] arguments whose tags hold no
    path separator (as all those of the code: none, [false] and the values
    of [PLATFORMS]) give the same settings path exactly when both are falsy
    (both name the generic [settings.json]) or both are the same tag:
    different platform tags never share a file, and no tag names the
    generic file. *)
Theorem same_settings_file folder os1 os2 :
  plain_tag os1 = true → plain_tag os2 = true →
  settings_path folder os1 = settings_path folder os2 ↔
    (os_truthy os1 = false ∧ os_truthy os2 = false) ∨
    (os_truthy os1 = true ∧ os_truthy os2 = true ∧
     os_to_string os1 = os_to_string os2).
Proof.
  intros [Hs1 _]%andb_true_iff [Hs2 _]%andb_true_iff. split.
  - intros H%settings_path_inj; [|by apply settings_file_name_is_file_name..].
    destruct (os_truthy os1) eqn:H1, (os_truthy os2) eqn:H2.
    + right. eauto using settings_file_name_inj.
    + exfalso. apply (settings_file_name_tagged os1 H1).
      rewrite H. unfold settings_file_name. by rewrite H2.
    + exfalso. apply (settings_file_name_tagged os2 H2).
      rewrite <-H. unfold settings_file_name. by rewrite H1.
    + by left.
  - unfold settings_path, settings_file_name.
    intros [[-> ->]|(-> & -> & ->)]; done.
Qed.

Lemma same_settings_file_witness :
  settings_path "/w/" (OsTag "linux") = settings_path "/w/" (OsTag "macos") ↔
    (os_truthy (OsTag "linux") = false ∧ os_truthy (OsTag "macos") = false) ∨
    (os_truthy (OsTag "linux") = true ∧ os_truthy (OsTag "macos") = true ∧
     os_to_string (OsTag "linux") = os_to_string (OsTag "macos")).
Proof.
  apply (same_settings_file "/w/" (OsTag "linux") (OsTag "macos"));
    vm_compute; reflexivity.
Defined.


Section sync.
Implicit Types (w : world) (filePath folder tag : string) (os : os_arg).

Lemma getOsName_supported tag w :
  own_property PLATFORMS (platform w) = Some tag →
  getOsName w = (Returned (OsTag tag), w).
Proof. intros H. unfold getOsName. by rewrite H. Qed.

Lemma getOsName_unsupported w :
  own_property PLATFORMS (platform w) = None →
  getOsName w =
    (Returned OsFalse,
     notify (ErrorMessage ("Unsupported operating system: " +:+ platform w)) w).
Proof. intros H. unfold getOsName. by rewrite H. Qed.

Lemma own_property_truthy tag p :
  own_property PLATFORMS p = Some tag → os_truthy (OsTag tag) = true.
Proof.
  unfold PLATFORMS. cbn [own_property].
  repeat case_bool_decide; by intros [= <-].
Qed.

(** The default settings when [settings.all.json] holds a truthy value. *)
Lemma getDefaultSettingsFileContent_all folder rest v w :
  workspaceFolders w = Some (folder :: rest) →
  disk w !! settings_path folder (OsTag "all") = Some (json_file v) →
  truthy v = true →
  getDefaultSettingsFileContent w = (Returned v, w).
Proof.
  intros Hw Hall Hv. apply getDefaultSettingsFileContent_truthy; [|done].
  rewrite (getSettingsFileContent_open _ folder rest) by done.
  by apply getFileContent_json.
Qed.

(** [updateSettingsFile] up to its last two steps: what comes before them
    leaves everything but the console as it was. *)
Lemma updateSettingsFile_unfold newSettings folder rest w :
  workspaceFolders w = Some (folder :: rest) →
  ∃ w1, same_host w w1 ∧ shown w1 = shown w ∧
    updateSettingsFile newSettings w =
      (defaultSettings ← getDefaultSettingsFileContent;
       writeFile (settings_path folder OsUndefined)
         (JSON_stringify (deepMerge (Json defaultSettings) newSettings))) w1.
Proof.
  intros Hw. unfold updateSettingsFile.
  rewrite (bind_returned _ _ _ _ _ (getSettingFilePath_open OsUndefined folder rest w Hw)).
  unfold fileExists at 1.
  erewrite bind_returned by reflexivity.
  destruct (negb _).
  - unfold createFileIfNotExists, fs_without_callback, console_error, console_log.
    run. eexists. split_and!; [| |reflexivity]; by repeat split.
  - exists w. split_and!; [apply same_host_refl|done|]. by run.
Qed.

Lemma writeFile_ok filePath data w :
  write_failure w filePath = None →
  writeFile filePath data w =
    (Returned tt, with_disk (<[filePath := Readable data]> (disk w)) w).
Proof. intros H. unfold writeFile. by rewrite H. Qed.

Lemma writeFile_fails filePath data error partial w :
  write_failure w filePath = Some (Failure error partial) →
  writeFile filePath data w =
    (Thrown error, with_disk (after_failed_write filePath partial (disk w)) w).
Proof. intros H. unfold writeFile. rewrite H. destruct partial; [done|by destruct w]. Qed.

Lemma has_platform_file_true folder tag w :
  tag ∈ Object_values PLATFORMS →
  is_Some (disk w !! settings_path folder (OsTag tag)) →
  has_platform_file folder w = true.
Proof.
  unfold has_platform_file, Object_values, PLATFORMS. cbn [fmap list_fmap snd].
  rewrite !elem_of_cons, elem_of_nil.
  intros [->|[->|[->|[->|[]]]]] H; rewrite (bool_decide_eq_true_2 _ H);
    by rewrite ?orb_true_r.
Qed.

Lemma has_platform_file_false folder w :
  (∀ tag, tag ∈ Object_values PLATFORMS →
          disk w !! settings_path folder (OsTag tag) = None) →
  has_platform_file folder w = false.
Proof.
  intros H. unfold has_platform_file.
  rewrite !bool_decide_eq_false_2; [done|..];
    (rewrite H; [by intros [? [=]]|]);
    unfold Object_values, PLATFORMS; cbn [fmap list_fmap snd];
    rewrite !elem_of_cons; auto 6.
Qed.

Lemma own_property_value tag p :
  own_property PLATFORMS p = Some tag → tag ∈ Object_values PLATFORMS.
Proof.
  unfold Object_values, PLATFORMS. cbn [own_property fmap list_fmap snd].
  rewrite !elem_of_cons.
  repeat case_bool_decide; intros [= <-]; auto 6.
Qed.

(** The entry point in an open workspace, past its two guards. *)
Lemma vsCodeUpdateSettingsFile_valid folder rest w :
  workspaceFolders w = Some (folder :: rest) →
  has_platform_file folder w = true →
  vsCodeUpdateSettingsFile w =
    (os ← getOsName;
     osSettings ← getSettingsFileContent os;
     try_catch
       (updateSettingsFile osSettings;;
        showInformationMessage
          ("Updated settings.json for " +:+ os_to_string os +:+ " operating system."))
       (fun error =>
          showErrorMessage ("Error updating settings.json: " +:+ error))) w.
Proof.
  intros Hw Hvalid. unfold vsCodeUpdateSettingsFile.
  rewrite (bind_returned _ _ _ _ _ (isValid_open folder rest w Hw)).
  fold (has_platform_file folder w). rewrite Hvalid. cbn [negb]. by rewrite Hw.
Qed.

Lemma vsCodeUpdateSettingsFile_invalid folder rest w :
  workspaceFolders w = Some (folder :: rest) →
  has_platform_file folder w = false →
  vsCodeUpdateSettingsFile w =
    (Returned tt, notify (ErrorMessage "No workspace folder opened.") w).
Proof.
  intros Hw Hvalid. unfold vsCodeUpdateSettingsFile.
  rewrite (bind_returned _ _ _ _ _ (isValid_open folder rest w Hw)).
  fold (has_platform_file folder w). by rewrite Hvalid.
Qed.

(** The [try] block of the entry point, given what the default settings
    resolve to: [defaultSettings], after showing [msgs]. *)
Lemma update_and_report folder rest os newSettings defaultSettings msgs w :
  workspaceFolders w = Some (folder :: rest) →
  (∀ w1, same_host w w1 →
     getDefaultSettingsFileContent w1 =
       (Returned defaultSettings, with_shown (shown w1 ++ msgs)%list w1)) →
  ∃ w',
    try_catch
      (updateSettingsFile newSettings;;
       showInformationMessage
         ("Updated settings.json for " +:+ os_to_string os +:+ " operating system."))
      (fun error => showErrorMessage ("Error updating settings.json: " +:+ error)) w
    = (Returned tt, w') ∧
    same_environment w w' ∧
    match write_failure w (settings_path folder OsUndefined) with
    | None =>
        disk w' = <[settings_path folder OsUndefined :=
                      json_file (written (deepMerge defaultSettings newSettings))]> (disk w) ∧
        shown w' = (shown w ++ msgs ++ [updated_message os])%list
    | Some (Failure error partial) =>
        disk w' = after_failed_write (settings_path folder OsUndefined) partial (disk w) ∧
        shown w' = (shown w ++ msgs ++ [update_error_message error])%list
    end.
Proof.
  intros Hw Hdefault.
  destruct (updateSettingsFile_unfold newSettings folder rest w Hw)
    as (w1 & Hh & Hs & Hrun).
  unfold try_catch.
  unfold mbind at 1, M_bind at 1. rewrite Hrun.
  rewrite (bind_returned _ _ _ _ _ (Hdefault w1 Hh)).
  destruct Hh as (Hws & Hp & Hd & Hwf).
  unfold writeFile. cbn [write_failure with_shown]. rewrite Hwf.
  destruct (write_failure w _) as [[error [partial|]]|].
  - eexists. split; [reflexivity|]. cbn. rewrite Hs, Hd, <-app_assoc.
    by repeat split.
  - eexists. split; [reflexivity|]. cbn. rewrite Hs, Hd, <-app_assoc.
    by repeat split.
  - eexists. split; [reflexivity|]. cbn. rewrite Hs, Hd, <-app_assoc.
    by repeat split.
Qed.
End sync.

Section sync_theorems.
Implicit Types (w : world) (folder tag : string).

Lemma default_is_all folder rest v w :
  workspaceFolders w = Some (folder :: rest) →
  disk w !! settings_path folder (OsTag "all") = Some (json_file v) →
  truthy v = true →
  ∀ w1, same_host w w1 →
    getDefaultSettingsFileContent w1 =
      (Returned v, with_shown (shown w1 ++ [])%list w1).
Proof.
  intros Hw Hall Hv w1 (Hws & _ & Hd & _).
  rewrite app_nil_r.
  rewrite (getDefaultSettingsFileContent_all folder rest v w1); [by destruct w1|..];
    congruence.
Qed.

End sync_theorems.

(** X18.  The synchronisation.  In an open workspace on a supported
    platform, when [settings.all.json] holds a truthy JSON value, the file
    of the platform holds a JSON value and the write succeeds, the entry
    point returns, [settings.json] holds what [JSON.stringify] writes of
    the merge of the two (whatever it held before, if it existed), and the
    one notification is the success message for the platform. *)
Theorem sync_writes_merged_settings folder rest tag all_settings os_settings w :
  workspaceFolders w = Some (folder :: rest) →
  own_property PLATFORMS (platform w) = Some tag →
  disk w !! settings_path folder (OsTag "all") = Some (json_file all_settings) →
  truthy all_settings = true →
  disk w !! settings_path folder (OsTag tag) = Some (json_file os_settings) →
  write_failure w (settings_path folder OsUndefined) = None →
  ∃ w',
    vsCodeUpdateSettingsFile w = (Returned tt, w') ∧
    same_environment w w' ∧
    disk w' = <[settings_path folder OsUndefined :=
                  json_file (written (deepMerge all_settings os_settings))]> (disk w) ∧
    shown w' = (shown w ++ [updated_message (OsTag tag)])%list.
Proof.
  intros Hw Hplat Hall Htruthy Hos Hwrite.
  assert (has_platform_file folder w = true) as Hvalid.
  { apply (has_platform_file_true folder tag); [by eapply own_property_value|eauto]. }
  rewrite (vsCodeUpdateSettingsFile_valid folder rest w Hw Hvalid).
  rewrite (bind_returned _ _ _ _ _ (getOsName_supported tag w Hplat)).
  rewrite (bind_returned _ _ (os_settings) w w).
  2: { rewrite (getSettingsFileContent_open _ folder rest) by done.
       by apply getFileContent_json. }
  destruct (update_and_report folder rest (OsTag tag) os_settings all_settings [] w Hw)
    as (w' & Hrun & Henv & Hres); [by apply (default_is_all folder rest)|].
  rewrite Hwrite in Hres. exists w'. by destruct Hres.
Qed.

Lemma sync_writes_merged_settings_witness :
  ∃ w',
    vsCodeUpdateSettingsFile all_and_linux = (Returned tt, w') ∧
    same_environment all_and_linux w' ∧
    disk w' = <[settings_path "/w" OsUndefined :=
                  json_file (written (deepMerge (VObj {[ "a" := VInt 1 ]})
                                                (VObj {[ "b" := VInt 2 ]})))]>
                (disk all_and_linux) ∧
    shown w' = (shown all_and_linux ++ [updated_message (OsTag "linux")])%list.
Proof.
  apply (sync_writes_merged_settings "/w" [] "linux"
           (VObj {[ "a" := VInt 1 ]}) (VObj {[ "b" := VInt 2 ]}) all_and_linux);
    vm_compute; reflexivity.
Defined.



(** X20.  In an open workspace where none of the four platform settings
    files exists, the entry point shows 'No workspace folder opened.' and
    does nothing else, whether or not the generic [settings.json]
    exists. *)
Theorem no_platform_file_no_update folder rest w :
  workspaceFolders w = Some (folder :: rest) →
  (∀ tag, tag ∈ Object_values PLATFORMS →
          disk w !! settings_path folder (OsTag tag) = None) →
  vsCodeUpdateSettingsFile w =
    (Returned tt, notify (ErrorMessage "No workspace folder opened.") w).
Proof.
  intros Hw Hnone.
  by apply (vsCodeUpdateSettingsFile_invalid folder rest), has_platform_file_false.
Qed.

Lemma no_platform_file_no_update_witness :
  vsCodeUpdateSettingsFile only_generic =
    (Returned tt, notify (ErrorMessage "No workspace folder opened.") only_generic).
Proof.
  apply (no_platform_file_no_update "/w" [] only_generic); [reflexivity|].
  intros tag Htag. unfold Object_values, PLATFORMS in Htag.
  cbn [fmap list_fmap snd] in Htag. rewrite !elem_of_cons, elem_of_nil in Htag.
  destruct Htag as [->|[->|[->|[->|[]]]]]; vm_compute; reflexivity.
Defined.

(** X21.  On a platform that is not in [PLATFORMS] the entry point shows
    the unsupported-platform error and goes on with [os = false]: it reads
    the generic [settings.json] as the platform settings, writes what
    [JSON.stringify] makes of the merge of [settings.all.json] with it back
    to [settings.json], and reports an update for the 'false' operating
    system. *)
Theorem unsupported_platform_still_updates folder rest all_settings settings w :
  workspaceFolders w = Some (folder :: rest) →
  own_property PLATFORMS (platform w) = None →
  disk w !! settings_path folder (OsTag "all") = Some (json_file all_settings) →
  truthy all_settings = true →
  disk w !! settings_path folder OsUndefined = Some (json_file settings) →
  write_failure w (settings_path folder OsUndefined) = None →
  ∃ w',
    vsCodeUpdateSettingsFile w = (Returned tt, w') ∧
    same_environment w w' ∧
    disk w' = <[settings_path folder OsUndefined :=
                  json_file (written (deepMerge all_settings settings))]> (disk w) ∧
    shown w' = (shown w ++
                [ErrorMessage ("Unsupported operating system: " +:+ platform w);
                 InformationMessage
                   "Updated settings.json for false operating system."])%list.
Proof.
  intros Hw Hplat Hall Htruthy Hgen Hwrite.
  assert (has_platform_file folder w = true) as Hvalid.
  { apply (has_platform_file_true folder "all"); [|eauto].
    unfold Object_values, PLATFORMS. cbn [fmap list_fmap snd]. by left. }
  rewrite (vsCodeUpdateSettingsFile_valid folder rest w Hw Hvalid).
  rewrite (bind_returned _ _ _ _ _ (getOsName_unsupported w Hplat)).
  set (w1 := notify _ w).
  rewrite (bind_returned _ _ settings w1 w1).
  2: { rewrite (getSettingsFileContent_open _ folder rest) by done.
       by apply getFileContent_json. }
  destruct (update_and_report folder rest OsFalse settings all_settings [] w1 Hw)
    as (w' & Hrun & Henv & Hres); [by apply (default_is_all folder rest)|].
  change (write_failure w1) with (write_failure w) in Hres.
  rewrite Hwrite in Hres. destruct Hres as [Hdisk Hshown].
  exists w'. split_and!; [done|done|done|].
  rewrite Hshown. unfold w1. cbn. by rewrite <-app_assoc.
Qed.

Lemma unsupported_platform_still_updates_witness :
  ∃ w',
    vsCodeUpdateSettingsFile freebsd_host = (Returned tt, w') ∧
    same_environment freebsd_host w' ∧
    disk w' = <[settings_path "/w" OsUndefined :=
                  json_file (written (deepMerge (VObj {[ "a" := VInt 1 ]})
                                                (VObj {[ "c" := VInt 3 ]})))]>
                (disk freebsd_host) ∧
    shown w' = (shown freebsd_host ++
                [ErrorMessage ("Unsupported operating system: " +:+ platform freebsd_host);
                 InformationMessage
                   "Updated settings.json for false operating system."])%list.
Proof.
  apply (unsupported_platform_still_updates "/w" []
           (VObj {[ "a" := VInt 1 ]}) (VObj {[ "c" := VInt 3 ]}) freebsd_host);
    vm_compute; reflexivity.
Defined.





(** X23.  Running the entry point a second time changes nothing on the
    disk: under the conditions of a successful run, the disk after two
    runs is the disk after one. *)
Theorem sync_twice_is_sync_once folder rest tag all_settings os_settings w :
  workspaceFolders w = Some (folder :: rest) →
  own_property PLATFORMS (platform w) = Some tag →
  disk w !! settings_path folder (OsTag "all") = Some (json_file all_settings) →
  truthy all_settings = true →
  disk w !! settings_path folder (OsTag tag) = Some (json_file os_settings) →
  write_failure w (settings_path folder OsUndefined) = None →
  ∃ w1 w2,
    vsCodeUpdateSettingsFile w = (Returned tt, w1) ∧
    vsCodeUpdateSettingsFile w1 = (Returned tt, w2) ∧
    disk w2 = disk w1.
Proof.
  intros Hw Hplat Hall Htruthy Hos Hwrite.
  assert (has_platform_file folder w = true) as Hvalid.
  { apply (has_platform_file_true folder tag); [by eapply own_property_value|eauto]. }
  assert (∀ w0,
    workspaceFolders w0 = Some (folder :: rest) →
    own_property PLATFORMS (platform w0) = Some tag →
    disk w0 !! settings_path folder (OsTag "all") = Some (json_file all_settings) →
    disk w0 !! settings_path folder (OsTag tag) = Some (json_file os_settings) →
    write_failure w0 (settings_path folder OsUndefined) = None →
    ∃ w', vsCodeUpdateSettingsFile w0 = (Returned tt, w') ∧ same_environment w0 w' ∧
      disk w' = <[settings_path folder OsUndefined :=
                    json_file (written (deepMerge all_settings os_settings))]> (disk w0))
    as Hrun.
  { intros w0 Hw0 Hplat0 Hall0 Hos0 Hwrite0.
    assert (has_platform_file folder w0 = true) as Hvalid0.
    { apply (has_platform_file_true folder tag); [by eapply own_property_value|eauto]. }
    rewrite (vsCodeUpdateSettingsFile_valid folder rest w0 Hw0 Hvalid0).
    rewrite (bind_returned _ _ _ _ _ (getOsName_supported tag w0 Hplat0)).
    rewrite (bind_returned _ _ (os_settings) w0 w0).
    2: { rewrite (getSettingsFileContent_open _ folder rest) by done.
         by apply getFileContent_json. }
    destruct (update_and_report folder rest (OsTag tag) os_settings all_settings [] w0 Hw0)
      as (w' & Hr & Henv & Hres); [by apply (default_is_all folder rest)|].
    rewrite Hwrite0 in Hres. exists w'. by destruct Hres. }
  destruct (Hrun w Hw Hplat Hall Hos Hwrite) as (w1 & Hrun1 & (Hws & Hp & Hwf) & Hdisk1).
  destruct (Hrun w1) as (w2 & Hrun2 & _ & Hdisk2).
  - congruence.
  - congruence.
  - rewrite Hdisk1, lookup_insert_ne; [done|].
    apply generic_path_differs.
    unfold Object_values, PLATFORMS. cbn [fmap list_fmap snd]. by left.
  - rewrite Hdisk1, lookup_insert_ne; [done|].
    by eapply generic_path_differs, own_property_value.
  - congruence.
  - exists w1, w2. split_and!; [done..|].
    by rewrite Hdisk2, Hdisk1, insert_insert_eq.
Qed.

Lemma sync_twice_is_sync_once_witness :
  ∃ w1 w2,
    vsCodeUpdateSettingsFile all_and_linux = (Returned tt, w1) ∧
    vsCodeUpdateSettingsFile w1 = (Returned tt, w2) ∧
    disk w2 = disk w1.
Proof.
  apply (sync_twice_is_sync_once "/w" [] "linux"
           (VObj {[ "a" := VInt 1 ]}) (VObj {[ "b" := VInt 2 ]}) all_and_linux);
    vm_compute; reflexivity.
Defined.

Section frames.
Implicit Types (w : world) (folder filePath : string).

Lemma same_host_environment w w' : same_host w w' → same_environment w w'.
Proof. intros (? & ? & _ & ?). by repeat split. Qed.

Lemma same_environment_trans w1 w2 w3 :
  same_environment w1 w2 → same_environment w2 w3 → same_environment w1 w3.
Proof. unfold same_environment. intros (-> & -> & ->) (-> & -> & ->). done. Qed.

(** The [try] block of the entry point, whatever the files hold: it
    returns, and the disk is as before or has a new [settings.json]. *)
Lemma update_and_report_frame folder rest os newSettings w :
  workspaceFolders w = Some (folder :: rest) →
  ∃ w',
    try_catch
      (updateSettingsFile newSettings;;
       showInformationMessage
         ("Updated settings.json for " +:+ os_to_string os +:+ " operating system."))
      (fun error => showErrorMessage ("Error updating settings.json: " +:+ error)) w
    = (Returned tt, w') ∧
    same_environment w w' ∧
    (disk w' = disk w ∨
     ∃ f, disk w' = <[settings_path folder OsUndefined := f]> (disk w)).
Proof.
  intros Hw.
  destruct (updateSettingsFile_unfold newSettings folder rest w Hw)
    as (w1 & Hh1 & _ & Hrun).
  destruct (getDefaultSettingsFileContent_returns folder rest w1)
    as (defaultSettings & w2 & Hdef & Hh2); [by destruct Hh1 as (-> & _)|].
  unfold try_catch. unfold mbind at 1, M_bind at 1. rewrite Hrun.
  rewrite (bind_returned _ _ _ _ _ Hdef).
  pose proof (same_host_trans _ _ _ Hh1 Hh2) as (Hws & Hp & Hd & Hwf).
  unfold writeFile. destruct (write_failure w2 _) as [[error [partial|]]|].
  - eexists. split; [reflexivity|]. cbn. split; [by repeat split|].
    right. rewrite Hd. by eexists.
  - eexists. split; [reflexivity|]. cbn. split; [by repeat split|by left].
  - eexists. split; [reflexivity|]. cbn. split; [by repeat split|].
    right. rewrite Hd. by eexists.
Qed.
End frames.

(** X22.  Whatever the entry point does, and however it ends, the only
    file it can change is the generic [settings.json] of the first
    workspace folder; the workspace, the platform and the write failures
    stay as they were.  With no workspace folder nothing changes at all. *)
Theorem only_settings_json_is_written w o w' :
  vsCodeUpdateSettingsFile w = (o, w') →
  same_environment w w' ∧
  ∀ filePath,
    (∀ folder rest, workspaceFolders w = Some (folder :: rest) →
                    filePath ≠ settings_path folder OsUndefined) →
    disk w' !! filePath = disk w !! filePath.
Proof.
  destruct (workspaceFolders w) as [[|folder rest]|] eqn:Hw.
  - rewrite vsCodeUpdateSettingsFile_no_folder by done.
    intros [= <- <-]. by repeat split.
  - destruct (has_platform_file folder w) eqn:Hvalid.
    + rewrite (vsCodeUpdateSettingsFile_valid folder rest w Hw Hvalid).
      destruct (getOsName_returns w) as (os & w1 & Hos & Hh1).
      rewrite (bind_returned _ _ _ _ _ Hos).
      assert (workspaceFolders w1 = Some (folder :: rest)) as Hw1
        by (destruct Hh1 as (-> & _); done).
      destruct (getFileContent_returns (settings_path folder os) w1)
        as (osSettings & w2 & Hget & Hh2 & _).
      rewrite <-(getSettingsFileContent_open _ folder rest) in Hget by done.
      rewrite (bind_returned _ _ _ _ _ Hget).
      assert (workspaceFolders w2 = Some (folder :: rest)) as Hw2
        by (destruct Hh2 as (-> & _); done).
      destruct (update_and_report_frame folder rest os osSettings w2 Hw2)
        as (w3 & -> & Henv & Hdisk).
      intros [= <- <-].
      pose proof (same_host_trans _ _ _ Hh1 Hh2) as H12.
      split.
      { eapply same_environment_trans; [by apply same_host_environment|done]. }
      intros filePath Hne. destruct H12 as (_ & _ & Hd & _).
      destruct Hdisk as [->|[v ->]]; [by rewrite Hd|].
      rewrite lookup_insert_ne by (apply not_eq_sym; eauto). by rewrite Hd.
    + rewrite (vsCodeUpdateSettingsFile_invalid folder rest w Hw Hvalid).
      intros [= <- <-]. by repeat split.
  - rewrite vsCodeUpdateSettingsFile_closed by done.
    intros [= <- <-]. by repeat split.
Qed.

Lemma only_settings_json_is_written_witness :
  same_environment all_and_linux (snd (vsCodeUpdateSettingsFile all_and_linux)) ∧
  ∀ filePath,
    (∀ folder rest, workspaceFolders all_and_linux = Some (folder :: rest) →
                    filePath ≠ settings_path folder OsUndefined) →
    disk (snd (vsCodeUpdateSettingsFile all_and_linux)) !! filePath
    = disk all_and_linux !! filePath.
Proof.
  apply (only_settings_json_is_written all_and_linux
           (fst (vsCodeUpdateSettingsFile all_and_linux))).
  by destruct (vsCodeUpdateSettingsFile all_and_linux).
Defined.

(** X13.  [getFileContent] never throws and never touches the disk.  It
    returns the parsed value and shows nothing when the file holds JSON;
    in every other case (missing, unreadable, not JSON) it returns [{}] and
    shows exactly one error. *)
Theorem getFileContent_never_throws filePath w :
  ∃ v w',
    getFileContent filePath w = (Returned v, w') ∧ same_host w w' ∧
    ((disk w !! filePath = Some (json_file v) ∧ shown w' = shown w) ∨
     ((∀ v0, disk w !! filePath ≠ Some (json_file v0)) ∧ v = empty_object ∧
      ∃ text, shown w' = (shown w ++ [ErrorMessage text])%list)).
Proof.
  destruct (disk w !! filePath) as [[reason|[reason|v]]|] eqn:H.
  - rewrite (getFileContent_unreadable _ reason) by done.
    eexists _, _. split_and!; [done|apply same_host_notify|].
    right. split_and!; [done|done|by eexists].
  - rewrite (getFileContent_not_json _ reason) by done.
    eexists _, _. split_and!; [done|apply same_host_notify|].
    right. split_and!; [done|done|by eexists].
  - rewrite (getFileContent_json _ v) by done.
    eexists _, _. split_and!; [done|apply same_host_refl|]. by left.
  - rewrite getFileContent_missing by done.
    eexists _, _. split_and!; [done|apply same_host_notify|].
    right. split_and!; [done|done|by eexists].
Qed.

(** X14.  Whenever [getDefaultSettingsFileContent] returns, the value is
    truthy (never [null], [false], [0] or the empty string), and the disk
    is untouched. *)
Theorem default_settings_are_truthy w v w' :
  getDefaultSettingsFileContent w = (Returned v, w') →
  truthy v = true ∧ same_host w w'.
Proof.
  destruct (workspaceFolders w) as [[|folder rest]|] eqn:Hw.
  - unfold getDefaultSettingsFileContent, getSettingsFileContent, getSettingFilePath.
    run. by rewrite Hw.
  - unfold getDefaultSettingsFileContent.
    destruct (getFileContent_returns (settings_path folder (OsTag "all")) w)
      as (all & w1 & Hall & Hh1 & _).
    rewrite <-(getSettingsFileContent_open _ folder rest) in Hall by done.
    rewrite (bind_returned _ _ _ _ _ Hall).
    destruct (truthy all) eqn:Hta; [by intros [= <- <-]|].
    assert (workspaceFolders w1 = Some (folder :: rest)) as Hw1
      by (destruct Hh1 as (-> & _); done).
    destruct (getFileContent_returns (settings_path folder OsUndefined) w1)
      as (settings & w2 & Hset & Hh2 & _).
    rewrite <-(getSettingsFileContent_open _ folder rest) in Hset by done.
    rewrite (bind_returned _ _ _ _ _ Hset).
    destruct (truthy settings) eqn:Hts; intros [= <- <-];
      eauto using same_host_trans.
  - unfold getDefaultSettingsFileContent, getSettingsFileContent, getSettingFilePath.
    run. by rewrite Hw.
Qed.

Lemma default_settings_are_truthy_witness :
  truthy (VObj {[ "a" := VInt 1 ]}) = true ∧ same_host null_all null_all.
Proof.
  apply (default_settings_are_truthy null_all (VObj {[ "a" := VInt 1 ]}) null_all).
  vm_compute. reflexivity.
Defined.

(** X15.  In an open workspace [isValid] returns without changing
    anything, and its answer is [true] exactly when the settings file of
    one of the values of [PLATFORMS] exists; the generic [settings.json]
    does not count. *)
Theorem isValid_probes_platform_files folder rest w :
  workspaceFolders w = Some (folder :: rest) →
  ∃ valid,
    isValid w = (Returned valid, w) ∧
    (valid = true ↔
       ∃ tag, tag ∈ Object_values PLATFORMS ∧
              is_Some (disk w !! settings_path folder (OsTag tag))).
Proof.
  intros Hw. exists (has_platform_file folder w).
  split; [by apply (isValid_open folder rest)|]. split.
  - unfold has_platform_file. rewrite !orb_true_iff, !bool_decide_eq_true.
    unfold Object_values, PLATFORMS. cbn [fmap list_fmap snd].
    intros [[[?|?]|?]|?]; eexists; (split; [|done]);
      rewrite !elem_of_cons; auto 6.
  - intros (tag & Htag & Hfile). by apply (has_platform_file_true folder tag).
Qed.

Lemma isValid_probes_platform_files_witness :
  ∃ valid,
    isValid only_generic = (Returned valid, only_generic) ∧
    (valid = true ↔
       ∃ tag, tag ∈ Object_values PLATFORMS ∧
              is_Some (disk only_generic !! settings_path "/w" (OsTag tag))).
Proof. apply (isValid_probes_platform_files "/w" [] only_generic). reflexivity. Defined.

Lemma own_property_Some (o : list (string * string)) key v :
  own_property o key = Some v → (key, v) ∈ o.
Proof.
  induction o as [|[k x] o IH]; [done|]. cbn [own_property].
  case_bool_decide as Hk.
  - intros [= <-]. subst. by left.
  - intros H. right. by apply IH.
Qed.

Lemma own_property_None (o : list (string * string)) key :
  own_property o key = None → key ∉ o.*1.
Proof.
  induction o as [|[k x] o IH]; [by intros _ ?%elem_of_nil|]. cbn [own_property].
  case_bool_decide as Hk; [done|].
  intros H. cbn. rewrite not_elem_of_cons. split; [done|by apply IH].
Qed.

(** X16.  [getOsName] returns the tag that [PLATFORMS] gives for
    [process.platform] and shows nothing; for a platform that is not a key
    of [PLATFORMS] it shows one error naming the platform and returns
    [false]. *)
Theorem getOsName_spec w :
  (∃ tag, (platform w, tag) ∈ PLATFORMS ∧ getOsName w = (Returned (OsTag tag), w)) ∨
  ((platform w ∉ PLATFORMS.*1) ∧
   getOsName w =
     (Returned OsFalse,
      notify (ErrorMessage ("Unsupported operating system: " +:+ platform w)) w)).
Proof.
  destruct (own_property PLATFORMS (platform w)) as [tag|] eqn:H.
  - left. exists tag. split; [by apply own_property_Some|by apply getOsName_supported].
  - right. split; [by apply own_property_None|by apply getOsName_unsupported].
Qed.

(** X17.  [createFileIfNotExists] never throws to its caller and creates
    nothing: its calls go to the callback API of [fs] without a callback,
    the first one throws, and the [catch] logs one console line.  The disk
    and the notifications are as before. *)
Theorem createFileIfNotExists_changes_nothing filePath content w :
  ∃ line,
    createFileIfNotExists filePath content w =
      (Returned tt, with_console (console w ++ [line])%list w).
Proof.
  unfold createFileIfNotExists, fs_without_callback, console_error, console_log.
  run. by eexists.
Qed.

